(** * ProcessGEE: request building and file housekeeping

    A shallow embedding of [src/ProcessGEE.py].  The script talks to three
    outside parties: the Earth Engine client ([ee]), the companion library
    ([geemap], [geopandas]) and the mosaic helper ([ProcessRasters]).  Every
    call into one of them is recorded as an [Event]; the local file system is
    explicit state; Python exceptions are results.

    Coordinates are exact rationals.  Calls into the libraries go through,
    but for the mosaic helper, whose verdict on a list of tiles belongs to
    the environment; the exceptions that remain are Python's own (an unbound
    name, an index out of range) and those of the [os] module.  Paths are
    POSIX paths.  Console output, [gc.collect()], [del] and the closing of
    the dataset returned by the mosaic helper change neither the file system
    nor the sequence of calls and are left out. *)

From Stdlib Require Import List String Ascii Bool Arith ZArith QArith Qabs Lia.
From Stdlib Require Import DecimalString Lqa.
Import ListNotations.
Open Scope string_scope.
Open Scope list_scope.

Set Implicit Arguments.

(** Python's [+] on strings and the pieces of an f-string. *)
Infix "^^" := String.append (at level 60, right associativity).

(** ** The area of interest and its bounding box *)

Module Aoi.

Definition point : Type := (Q * Q)%type.

(** A polygon as the shapefile stores it: an outer ring and its holes. *)
Record polygon := Polygon { exterior : list point; interiors : list (list point) }.

Definition GeoDataFrame := list polygon.

(** The four numbers of [total_bounds], in the order geopandas documents
    them: (xmin, ymin, xmax, ymax). *)
Definition BBox : Type := (Q * Q * Q * Q)%type.

Definition Qgtb (a b : Q) : bool := negb (Qle_bool a b).

Definition Qminb (a b : Q) : Q := if Qle_bool a b then a else b.
Definition Qmaxb (a b : Q) : Q := if Qle_bool a b then b else a.

Definition vertices (g : GeoDataFrame) : list point :=
  flat_map (fun p => exterior p ++ List.concat (interiors p)) g.

(** [shp_gdf.total_bounds]: the envelope of all coordinates.  On a frame
    without coordinates geopandas answers four NaN: that is [None]. *)
Definition total_bounds (g : GeoDataFrame) : option BBox :=
  match vertices g with
  | [] => None
  | (x, y) :: ps =>
      Some (fold_left
              (fun '(xmin, ymin, xmax, ymax) '(px, py) =>
                 (Qminb xmin px, Qminb ymin py, Qmaxb xmax px, Qmaxb ymax py))
              ps (x, y, x, y))
  end.

(** Lines 99-105 of [get_dynworld_landcover]: the four bounds are unpacked
    under the names (ymin, xmin, ymax, xmax) and tested against 1. *)
Definition dw_large_aoi (bbox : BBox) : bool :=
  let '(ymin, xmin, ymax, xmax) := bbox in
  let large_aoi := false in
  if Qgtb (Qabs (ymax - ymin)) 1 || Qgtb (Qabs (xmax - xmin)) 1
  then true else large_aoi.

(** Lines 340-341 of [get_sentinel2]. *)
Definition s2_large_aoi (bbox : BBox) : bool :=
  let '(ymin, xmin, ymax, xmax) := bbox in
  Qgtb (Qabs (ymax - ymin)) 1 || Qgtb (Qabs (xmax - xmin)) 1.

(** The same test on the NaN bounds of an empty frame: every comparison
    with NaN is false. *)
Definition on_bounds (large : BBox -> bool) (b : option BBox) : bool :=
  match b with
  | Some bbox => large bbox
  | None => false
  end.

(** The predicate of the comment on line 102, with the four numbers under
    their documented names: more than one degree in X or in Y. *)
Definition x_extent (bbox : BBox) : Q :=
  let '(xmin, _, xmax, _) := bbox in Qabs (xmax - xmin).
Definition y_extent (bbox : BBox) : Q :=
  let '(_, ymin, _, ymax) := bbox in Qabs (ymax - ymin).

Definition large_aoi_labelled (bbox : BBox) : bool :=
  let '(xmin, ymin, xmax, ymax) := bbox in
  Qgtb (Qabs (ymax - ymin)) 1 || Qgtb (Qabs (xmax - xmin)) 1.

Inductive strategy := Tiled | SingleShot.

Definition strategy_of (large_aoi : bool) : strategy :=
  if large_aoi then Tiled else SingleShot.

End Aoi.

(** ** Python and library functions the script relies on *)

Module Py.

Definition str_of_nat (n : nat) : string := NilZero.string_of_uint (Nat.to_uint n).
Definition str_of_Z (z : Z) : string := NilZero.string_of_int (Z.to_int z).

(** [str(x)] inside an f-string for an [Optional[int]]. *)
Definition str_of_opt_int (o : option Z) : string :=
  match o with
  | Some z => str_of_Z z
  | None => "None"
  end.

Definition chars := list_ascii_of_string.
Definition of_chars := string_of_list_ascii.

Definition startswith (s p : string) : bool := String.prefix p s.
Definition endswith (s p : string) : bool :=
  String.prefix (of_chars (rev (chars p))) (of_chars (rev (chars s))).

(** [str.zfill(width)] on a string of digits. *)
Definition zfill (s : string) (width : nat) : string :=
  of_chars (repeat "0"%char (width - String.length s)) ^^ s.

(** [posixpath.join] of two components. *)
Definition os_path_join (a b : string) : string :=
  if startswith b "/" then b
  else if (a =? "") || endswith a "/" then a ^^ b
  else a ^^ "/" ^^ b.

(** [fnmatch] on the characters of a name, with the wildcards [*] and [?];
    every other character stands for itself. *)
Fixpoint fnmatch_chars (pat name : list ascii) {struct pat} : bool :=
  match pat with
  | [] => match name with [] => true | _ => false end
  | c :: pat' =>
      if Ascii.eqb c "*" then
        (fix star (n : list ascii) : bool :=
           fnmatch_chars pat' n
           || match n with [] => false | _ :: n' => star n' end) name
      else
        match name with
        | [] => false
        | d :: name' =>
            (Ascii.eqb c "?" || Ascii.eqb c d) && fnmatch_chars pat' name'
        end
  end.

Definition fnmatch (name pat : string) : bool := fnmatch_chars (chars pat) (chars name).

Definition ishidden (name : string) : bool := startswith name ".".

End Py.

(** ** Earth Engine objects

    The client library builds expression graphs: an object is the name of a
    server function applied to arguments.  Nothing is computed locally. *)

Module EEObj.

Inductive ee_fn :=
| ImageCollection_load          (* ee.ImageCollection('id') *)
| ImageCollection_cast          (* ee.ImageCollection(obj) *)
| Collection_filterBounds
| Collection_filterDate
| Collection_filter
| Filter_lte
| Filter_equals
| Join_saveFirst
| Join_apply
| ImageCollection_merge
| Collection_aggregate_array
| Collection_map
| ImageCollection_select
| ImageCollection_reduce
| Reducer_mode
| Reducer_mean
| Reducer_median
| FeatureCollection_geometry
| Element_get
| Number_new
| Number_subtract
| Image_new
| Image_select
| Image_gt
| Image_lt
| Image_neq
| Image_rename
| Image_addBands
| Image_multiply
| Image_add
| Image_Not
| Image_mask
| Image_updateMask
| Image_projection
| Image_reproject
| Image_directionalDistanceTransform
| Image_focalMin
| Image_focalMax.

#[warnings="-register-all"] Inductive EE :=
| Str (s : string)
| Strs (l : list string)
| Lst (l : list EE)
| Num (q : Q)
| MapArg                                   (* the element a mapped function receives *)
| Shp (shp_path : string)                  (* what geemap.shp_to_ee returns *)
| Fishnet (region : EE) (rows cols : nat)  (* what geemap.fishnet returns *)
| Apply (f : ee_fn) (args : list EE).

End EEObj.
Export EEObj.

(** ** Calls that leave the script, the file system, exceptions *)

Inductive Event :=
| ee_Authenticate
| ee_Initialize (project : string)
| ee_call (f : ee_fn) (args : list EE)
| ee_getInfo (x : EE)
| geemap_shp_to_ee (shp_path : string)
| gpd_read_file (shp_path : string)
| geemap_fishnet (region : EE) (rows cols : nat)
| geemap_download_ee_image_tiles
    (image features : EE) (out_dir prefix crs : string) (scale : Q)
    (dtype : option string) (num_threads : option nat)
| geemap_download_ee_image
    (image : EE) (filename : string) (region : EE) (crs : string) (scale : Q)
    (dtype : option string) (num_threads : option nat)
| pr_mosaicRasters (mosaic_list : list string) (out_file extent_mode : string).

Inductive exn :=
| NameError (name : string)
| IndexError
| FileExistsError (p : string)
| FileNotFoundError (p : string)
| IsADirectoryError (p : string)
| NotADirectoryError (p : string)
| DirectoryNotEmpty (p : string)
| MosaicError (mosaic_list : list string).

Inductive result (A : Type) :=
| Ok (a : A)
| Raise (e : exn).
Arguments Ok {A} a.
Arguments Raise {A} e.

Module Fs.

Inductive kind := File | Dir.

(** A flat table of the paths that exist. *)
Definition FS := list (string * kind).

Definition lookup (fs : FS) (p : string) : option kind :=
  option_map snd (find (fun e => fst e =? p) fs).

Definition exists_ (fs : FS) (p : string) : bool :=
  match lookup fs p with Some _ => true | None => false end.

Definition is_dir (fs : FS) (p : string) : bool :=
  match lookup fs p with Some Dir => true | _ => false end.

Definition is_file (fs : FS) (p : string) : bool :=
  match lookup fs p with Some File => true | _ => false end.

Definition add (fs : FS) (p : string) (k : kind) : FS :=
  if exists_ fs p then fs else fs ++ [(p, k)].

Definition delete (fs : FS) (p : string) : FS :=
  filter (fun e => negb (fst e =? p)) fs.

(** The name of [p] inside directory [d], when [p] lies directly in [d]. *)
Definition name_in (d p : string) : option string :=
  let d' := if Py.endswith d "/" then d else d ^^ "/" in
  if String.prefix d' p then
    let name := substring (String.length d') (String.length p - String.length d') p in
    if (name =? "") || existsb (Ascii.eqb "/") (Py.chars name) then None else Some name
  else None.

Definition below (d p : string) : bool :=
  String.prefix (if Py.endswith d "/" then d else d ^^ "/") p
  && negb (p =? (if Py.endswith d "/" then d else d ^^ "/")).

Definition is_empty_dir (fs : FS) (d : string) : bool :=
  forallb (fun e => negb (below d (fst e))) fs.

(** [glob.glob(os.path.join(d, pattern))] for a directory [d] that holds no
    wildcard: the entries of [d] whose name matches, hidden names left out
    unless the pattern asks for them. *)
Definition glob_in (fs : FS) (d pattern : string) : list string :=
  flat_map
    (fun e =>
       match name_in d (fst e) with
       | Some name =>
           if (negb (Py.ishidden name) || Py.ishidden pattern) && Py.fnmatch name pattern
           then [Py.os_path_join d name] else []
       | None => []
       end) fs.

End Fs.
Export Fs.

(** ** The monad of the script: file-system state, a log of outside calls,
    exceptions *)

Record Run (A : Type) := MkRun { res : result A; fs_after : FS; trace : list Event }.

Definition M (A : Type) : Type := FS -> Run A.

Definition ret {A} (a : A) : M A := fun fs => MkRun (Ok a) fs [].

Definition raise {A} (e : exn) : M A := fun fs => MkRun (Raise e) fs [].

Definition bind {A B} (m : M A) (k : A -> M B) : M B :=
  fun fs =>
    match m fs with
    | MkRun (Ok a) fs1 t1 =>
        match k a fs1 with
        | MkRun r fs2 t2 => MkRun r fs2 (t1 ++ t2)
        end
    | MkRun (Raise e) fs1 t1 => MkRun (Raise e) fs1 t1
    end.

Declare Scope py_scope.
Delimit Scope py_scope with py.
Notation "x <- m ;; k" := (bind m (fun x => k))
  (at level 100, m at next level, right associativity) : py_scope.
Notation "' pat <- m ;; k" := (bind m (fun pat => k))
  (at level 100, pat pattern, m at next level, right associativity) : py_scope.
Notation "m ;; k" := (bind m (fun _ => k))
  (at level 100, right associativity) : py_scope.
Open Scope py_scope.

Definition emit (e : Event) : M unit := fun fs => MkRun (Ok tt) fs [e].

Definition get_fs : M FS := fun fs => MkRun (Ok fs) fs [].
Definition put_fs (fs' : FS) : M unit := fun _ => MkRun (Ok tt) fs' [].

(** [for x in l: body]. *)
Fixpoint for_ {A} (l : list A) (body : A -> M unit) : M unit :=
  match l with
  | [] => ret tt
  | x :: l' => body x ;; for_ l' body
  end.

(** [for x in l: acc = body(acc, x)]. *)
Fixpoint for_acc {A S} (l : list A) (acc : S) (body : S -> A -> M S) : M S :=
  match l with
  | [] => ret acc
  | x :: l' => acc' <- body acc x ;; for_acc l' acc' body
  end.

(** [l[i]]. *)
Definition index {A} (l : list A) (i : nat) : M A :=
  match nth_error l i with
  | Some x => ret x
  | None => raise IndexError
  end.

(** Reading a name that no statement of the function or module binds. *)
Definition unbound {A} (name : string) : M A := raise (NameError name).

(** [range(a, b)]. *)
Definition range (a b : nat) : list nat := seq a (b - a).

(** A server function applied through the client library. *)
Definition call (f : ee_fn) (args : list EE) : M EE :=
  emit (ee_call f args) ;; ret (Apply f args).

(** *** The [os] module on the flat table *)

Definition os_path_exists (p : string) : M bool :=
  fs <- get_fs ;; ret (exists_ fs p).

Definition os_makedirs (p : string) (exist_ok : bool) : M unit :=
  fs <- get_fs ;;
  match lookup fs p with
  | None => put_fs (add fs p Dir)
  | Some Dir => if exist_ok then ret tt else raise (FileExistsError p)
  | Some File => raise (FileExistsError p)
  end.

Definition os_remove (p : string) : M unit :=
  fs <- get_fs ;;
  match lookup fs p with
  | Some File => put_fs (delete fs p)
  | Some Dir => raise (IsADirectoryError p)
  | None => raise (FileNotFoundError p)
  end.

Definition os_rmdir (p : string) : M unit :=
  fs <- get_fs ;;
  match lookup fs p with
  | Some Dir => if is_empty_dir fs p then put_fs (delete fs p) else raise (DirectoryNotEmpty p)
  | Some File => raise (NotADirectoryError p)
  | None => raise (FileNotFoundError p)
  end.

Definition glob_glob (d pattern : string) : M (list string) :=
  fs <- get_fs ;; ret (glob_in fs d pattern).

Definition write_file (p : string) : M unit :=
  fs <- get_fs ;; put_fs (add fs p File).

(** ** What the outside world decides *)

Record Env := MkEnv {
  (** the geometries [gpd.read_file] finds in a shapefile *)
  shapefile : string -> Aoi.GeoDataFrame;
  (** the number of features of a feature collection (the cells of a fishnet) *)
  feature_count : EE -> nat;
  (** whether the mosaic helper goes through on a list of tiles *)
  mosaic_accepts : list string -> bool;
  (** [os.cpu_count()] *)
  cpu_count : option nat
}.

(** ** The libraries, call by call *)

Module ee.

Definition Authenticate : M unit := emit ee_Authenticate.
Definition Initialize (project : string) : M unit := emit (ee_Initialize project).
Definition getInfo (x : EE) : M unit := emit (ee_getInfo x).

Definition ImageCollection (id : string) := call ImageCollection_load [Str id].
Definition ImageCollection_of (x : EE) := call ImageCollection_cast [x].
Definition filterBounds (c aoi : EE) := call Collection_filterBounds [c; aoi].
Definition filterDate (c : EE) (s e : string) := call Collection_filterDate [c; Str s; Str e].
Definition filter (c f : EE) := call Collection_filter [c; f].
Definition merge (c1 c2 : EE) := call ImageCollection_merge [c1; c2].
Definition aggregate_array (c : EE) (property : string) :=
  call Collection_aggregate_array [c; Str property].
Definition select_col (c selectors : EE) := call ImageCollection_select [c; selectors].
Definition reduce (c reducer : EE) := call ImageCollection_reduce [c; reducer].
Definition geometry (fc : EE) := call FeatureCollection_geometry [fc].

(** [col.map(f)]: the client applies [f] once, to a placeholder, and ships
    the graph it gets. *)
Definition map (c : EE) (f : EE -> M EE) : M EE :=
  body <- f MapArg ;; call Collection_map [c; body].

Definition get (x : EE) (property : string) := call Element_get [x; Str property].
Definition Number (x : EE) := call Number_new [x].
Definition subtract (a b : EE) := call Number_subtract [a; b].
Definition Image (x : EE) := call Image_new [x].
Definition select (img selectors : EE) := call Image_select [img; selectors].
Definition gt (img v : EE) := call Image_gt [img; v].
Definition lt (img v : EE) := call Image_lt [img; v].
Definition neq (img v : EE) := call Image_neq [img; v].
Definition rename (img : EE) (name : string) := call Image_rename [img; Str name].
Definition addBands (img src : EE) := call Image_addBands [img; src].
Definition multiply (a b : EE) := call Image_multiply [a; b].
Definition add (a b : EE) := call Image_add [a; b].
Definition Not (img : EE) := call Image_Not [img].
Definition mask (img : EE) := call Image_mask [img].
Definition updateMask (img m : EE) := call Image_updateMask [img; m].
Definition projection (img : EE) := call Image_projection [img].
Definition reproject (img crs scale : EE) := call Image_reproject [img; crs; scale].
Definition directionalDistanceTransform (img angle maxDistance : EE) :=
  call Image_directionalDistanceTransform [img; angle; maxDistance].
Definition focalMin (img radius : EE) := call Image_focalMin [img; radius].
Definition focalMax (img radius : EE) := call Image_focalMax [img; radius].

Module Reducer.
Definition mode := call Reducer_mode [].
Definition mean := call Reducer_mean [].
Definition median := call Reducer_median [].
End Reducer.

Module Filter.
Definition lte (name : string) (value : EE) := call Filter_lte [Str name; value].
Definition equals (leftField rightField : string) :=
  call Filter_equals [Str leftField; Str rightField].
End Filter.

Module Join.
Definition saveFirst (matchKey : string) := call Join_saveFirst [Str matchKey].
Definition apply (join primary secondary condition : EE) :=
  call Join_apply [join; primary; secondary; condition].
End Join.

End ee.

Module geemap.

Definition shp_to_ee (shp_path : string) : M EE :=
  emit (geemap_shp_to_ee shp_path) ;; ret (Shp shp_path).

Definition fishnet (data : EE) (rows cols : nat) : M EE :=
  emit (geemap_fishnet data rows cols) ;; ret (Fishnet data rows cols).

(** One GeoTIFF per feature lands in [out_dir], named by the prefix and the
    1-based number of the feature, zero-filled to the width of the count. *)
Definition tile_name (prefix : string) (count i : nat) : string :=
  prefix ^^ Py.zfill (Py.str_of_nat (i + 1)) (String.length (Py.str_of_nat count)) ^^ ".tif".

Definition download_ee_image_tiles (env : Env)
    (image features : EE) (out_dir prefix crs : string) (scale : Q)
    (dtype : option string) (num_threads : option nat) : M unit :=
  emit (geemap_download_ee_image_tiles image features out_dir prefix crs scale
          dtype num_threads) ;;
  let count := feature_count env features in
  for_ (range 0 count)
    (fun i => write_file (Py.os_path_join out_dir (tile_name prefix count i))).

Definition download_ee_image
    (image : EE) (filename : string) (region : EE) (crs : string) (scale : Q)
    (dtype : option string) (num_threads : option nat) : M unit :=
  emit (geemap_download_ee_image image filename region crs scale dtype num_threads) ;;
  write_file filename.

End geemap.

Module gpd.

Definition read_file (env : Env) (shp_path : string) : M Aoi.GeoDataFrame :=
  emit (gpd_read_file shp_path) ;; ret (shapefile env shp_path).

End gpd.

Module pr.

(** Modelled from the spec: [ProcessRasters.mosaicRasters] is not among the
    sources.  The spec has it as "a helper mosaic function defined elsewhere"
    through which the script "stitches downloaded tiles back into single
    rasters": the call writes the one raster [out_file].  Whether it goes
    through on a given list of tiles is left to the environment. *)
Definition mosaicRasters (env : Env) (mosaic_list : list string)
    (out_file extent_mode : string) : M unit :=
  emit (pr_mosaicRasters mosaic_list out_file extent_mode) ;;
  if mosaic_accepts env mosaic_list then write_file out_file
  else raise (MosaicError mosaic_list).

End pr.

(** ** The script *)

Section ProcessGEE.

Variable env : Env.

(** *** Land cover *)

(** Lines 29-31 and 34-36: the Dynamic World collection for window [i]. *)
Definition dynworld_window (aoi : EE) (start_date end_date : list string) (i : nat) : M EE :=
  c <- ee.ImageCollection "GOOGLE/DYNAMICWORLD/V1" ;;
  c <- ee.filterBounds c aoi ;;
  s <- index start_date i ;;
  e <- index end_date i ;;
  ee.filterDate c s e.

Definition _get_dynworld_col (aoi : EE) (start_date end_date : list string) : M EE :=
  landcover_col <- dynworld_window aoi start_date end_date 0 ;;
  for_acc (range 1 (List.length start_date)) landcover_col
    (fun landcover_col i =>
       landcover_col1 <- dynworld_window aoi start_date end_date i ;;
       ee.merge landcover_col landcover_col1).

Definition _get_aoi (shp_path : string) : M (option Aoi.BBox * EE * EE) :=
  ee_shp <- geemap.shp_to_ee shp_path ;;
  ee_geometry <- ee.geometry ee_shp ;;
  shp_gdf <- gpd.read_file env shp_path ;;
  let bbox := Aoi.total_bounds shp_gdf in
  ret (bbox, ee_shp, ee_geometry).

Definition dynworld_bands : list string :=
  ["water"; "trees"; "grass"; "flooded_vegetation"; "crops"; "shrub_and_scrub";
   "built"; "bare"; "snow_and_ice"].

(** Lines 119-157: the land-cover class raster. *)
Definition dynworld_class (large_aoi : bool) (dw_composite ee_shp ee_geometry : EE)
    (out_folder dst_crs : string) (out_res : Q) : M unit :=
  if large_aoi then
    let tile_dir := Py.os_path_join out_folder "temp_tiles" in
    present <- os_path_exists tile_dir ;;
    (if negb present then os_makedirs tile_dir false else ret tt) ;;
    tile_features <- geemap.fishnet ee_shp 2 2 ;;
    geemap.download_ee_image_tiles env dw_composite tile_features tile_dir
      "landcover_" dst_crs out_res (Some "int8") (cpu_count env) ;;
    mosaic_list <- glob_glob tile_dir "*.tif" ;;
    let mosaic_out := Py.os_path_join out_folder "landcover.tif" in
    pr.mosaicRasters env mosaic_list mosaic_out "trim" ;;
    for_ mosaic_list os_remove ;;
    os_rmdir tile_dir
  else
    geemap.download_ee_image dw_composite (Py.os_path_join out_folder "landcover.tif")
      ee_geometry dst_crs out_res (Some "int8") (cpu_count env).

(** Lines 159-191: the per-band probabilities. *)
Definition dynworld_probability (prob_type : string) (large_aoi : bool)
    (landcover_col ee_shp ee_geometry : EE) (bands : list string)
    (out_folder dst_crs : string) (out_res : Q) : M unit :=
  let out_dir := Py.os_path_join out_folder "probability" in
  present <- os_path_exists out_dir ;;
  (if negb present then os_makedirs out_dir true else ret tt) ;;
  probs <- ee.select_col landcover_col (Strs bands) ;;
  probability <-
    (if prob_type =? "mean" then
       r <- ee.Reducer.mean ;; ee.reduce probs r
     else
       r <- ee.Reducer.median ;; ee.reduce probs r) ;;
  probs_multiband <- ee.select probability (Strs bands) ;;
  if large_aoi then
    tile_features <- geemap.fishnet ee_shp 2 2 ;;
    for_ bands
      (fun band =>
         image <- ee.select probs_multiband (Str band) ;;
         geemap.download_ee_image_tiles env image tile_features out_dir
           ("landcover_" ^^ band ^^ "_") dst_crs out_res None None)
  else
    for_ bands
      (fun band =>
         image <- ee.select probs_multiband (Str band) ;;
         geemap.download_ee_image image
           (Py.os_path_join out_dir ("landcover_prob_" ^^ band ^^ ".tif"))
           ee_geometry dst_crs out_res None None).

Definition get_dynworld_landcover
    (ee_project_id aoi_shp_path : string) (start_date end_date : list string)
    (out_folder : string) (bands : option (list string)) (out_epsg : option Z)
    (out_res : Q) (prob_type : option string) : M unit :=
  ee.Authenticate ;;
  ee.Initialize ee_project_id ;;
  let dst_crs := "EPSG:" ^^ Py.str_of_opt_int out_epsg in
  let bands := match bands with None => dynworld_bands | Some bands => bands end in
  '(bbox, ee_shp, ee_geometry) <- _get_aoi aoi_shp_path ;;
  let ee_shp := ee_geometry in
  let large_aoi := Aoi.on_bounds Aoi.dw_large_aoi bbox in
  landcover_col <- _get_dynworld_col ee_geometry start_date end_date ;;
  ids <- ee.aggregate_array landcover_col "system:index" ;;
  ee.getInfo ids ;;
  classification <- ee.select_col landcover_col (Str "label") ;;
  mode <- ee.Reducer.mode ;;
  dw_composite <- ee.reduce classification mode ;;
  dynworld_class large_aoi dw_composite ee_shp ee_geometry out_folder dst_crs out_res ;;
  match prob_type with
  | Some prob_type =>
      dynworld_probability prob_type large_aoi landcover_col ee_shp ee_geometry bands
        out_folder dst_crs out_res
  | None => ret tt
  end.

(** *** Sentinel-2 *)

(** Lines 199-213 and 216-230: the surface-reflectance images of window [i],
    each joined with its cloud-probability image. *)
Definition s2_window (aoi : EE) (start_date end_date : list string) (cloud_filter : Z)
    (i : nat) : M EE :=
  c <- ee.ImageCollection "COPERNICUS/S2_SR_HARMONIZED" ;;
  c <- ee.filterBounds c aoi ;;
  s <- index start_date i ;;
  e <- index end_date i ;;
  c <- ee.filterDate c s e ;;
  f <- ee.Filter.lte "CLOUDY_PIXEL_PERCENTAGE" (Num (inject_Z cloud_filter)) ;;
  s2_sr_col <- ee.filter c f ;;
  c <- ee.ImageCollection "COPERNICUS/S2_CLOUD_PROBABILITY" ;;
  c <- ee.filterBounds c aoi ;;
  s <- index start_date i ;;
  e <- index end_date i ;;
  s2_cloudless_col <- ee.filterDate c s e ;;
  join <- ee.Join.saveFirst "s2cloudless" ;;
  condition <- ee.Filter.equals "system:index" "system:index" ;;
  joined <- ee.Join.apply join s2_sr_col s2_cloudless_col condition ;;
  ee.ImageCollection_of joined.

Definition _get_s2_sr_cld_col (aoi : EE) (start_date end_date : list string)
    (cloud_filter : Z) : M EE :=
  s2_sr_cloudless_col <- s2_window aoi start_date end_date cloud_filter 0 ;;
  if negb (List.length start_date =? 1)%nat then
    for_acc (range 1 (List.length start_date)) s2_sr_cloudless_col
      (fun s2_sr_cloudless_col i =>
         s2_sr_cloudless_col1 <- s2_window aoi start_date end_date cloud_filter i ;;
         ee.merge s2_sr_cloudless_col s2_sr_cloudless_col1)
  else ret s2_sr_cloudless_col.

Definition _add_cloud_bands (img : EE) (cloud_prob_thres : Z) : M EE :=
  x <- ee.get img "s2cloudless" ;;
  x <- ee.Image x ;;
  cld_prb <- ee.select x (Str "probability") ;;
  x <- ee.gt cld_prb (Num (inject_Z cloud_prob_thres)) ;;
  is_cloud <- ee.rename x "clouds" ;;
  x <- ee.addBands img cld_prb ;;
  ee.addBands x is_cloud.

Definition _add_cloud_bands_to_collection (img_col : EE) (cloud_prob_thres : Z) : M EE :=
  ee.map img_col (fun img => _add_cloud_bands img cloud_prob_thres).

Definition _add_shadow_bands (img : EE) (nir_dark_thresh : Q) (cloud_proj_dist : Z) : M EE :=
  x <- ee.select img (Str "SCL") ;;
  not_water <- ee.neq x (Num 6) ;;
  let SR_BAND_SCALE : Q := 10000 in
  x <- ee.select img (Str "B8") ;;
  x <- ee.lt x (Num (nir_dark_thresh * SR_BAND_SCALE)) ;;
  x <- ee.multiply x not_water ;;
  dark_pixels <- ee.rename x "dark_pixels" ;;
  ninety <- ee.Number (Num 90) ;;
  x <- ee.get img "MEAN_SOLAR_AZIMUTH_ANGLE" ;;
  x <- ee.Number x ;;
  shadow_azimuth <- ee.subtract ninety x ;;
  x <- ee.select img (Str "clouds") ;;
  x <- ee.directionalDistanceTransform x shadow_azimuth
         (Num (inject_Z (cloud_proj_dist * 10))) ;;
  first_band <- ee.select img (Num 0) ;;
  crs <- ee.projection first_band ;;
  x <- ee.reproject x crs (Num 100) ;;
  x <- ee.select x (Str "distance") ;;
  x <- ee.mask x ;;
  cld_proj <- ee.rename x "cloud_transform" ;;
  x <- ee.multiply cld_proj dark_pixels ;;
  shadows <- ee.rename x "shadows" ;;
  x <- ee.Image (Lst [dark_pixels; cld_proj; shadows]) ;;
  ee.addBands img x.

Definition _add_cld_shdw_mask (img : EE) (buffer cloud_prob_thresh : Z)
    (nir_dark_thresh : Q) (cloud_proj_dist : Z) : M EE :=
  img_cloud <- _add_cloud_bands img cloud_prob_thresh ;;
  img_cloud_shadow <- _add_shadow_bands img_cloud nir_dark_thresh cloud_proj_dist ;;
  a <- ee.select img_cloud_shadow (Str "clouds") ;;
  b <- ee.select img_cloud_shadow (Str "shadows") ;;
  x <- ee.add a b ;;
  is_cld_shdw <- ee.gt x (Num 0) ;;
  x <- ee.focalMin is_cld_shdw (Num 2) ;;
  x <- ee.focalMax x (Num (inject_Z (buffer * 2) / 20)) ;;
  first_band <- ee.select img (Lst [Num 0]) ;;
  crs <- ee.projection first_band ;;
  x <- ee.reproject x crs (Num 20) ;;
  is_cld_shdw <- ee.rename x "cloudmask" ;;
  ee.addBands img_cloud_shadow is_cld_shdw.

Definition _add_cld_shdw_mask_to_collection (img_col : EE) (buffer cloud_prob_thresh : Z)
    (nir_dark_thresh : Q) (cloud_proj_dist : Z) : M EE :=
  ee.map img_col
    (fun img => _add_cld_shdw_mask img buffer cloud_prob_thresh nir_dark_thresh
                  cloud_proj_dist).

Definition _apply_cld_shdw_mask (img : EE) : M EE :=
  x <- ee.select img (Str "cloudmask") ;;
  not_cld_shdw <- ee.Not x ;;
  x <- ee.select img (Str "B.*") ;;
  ee.updateMask x not_cld_shdw.

Definition sentinel2_bands : list string := ["B2"; "B3"; "B4"; "B8"; "B12"].

(** Lines 369-397, the statements that are not commented out. *)
Definition sentinel2_tiled (ee_shp : EE) (bands : list string) (out_folder : string)
    : M unit :=
  let tile_dir := Py.os_path_join out_folder "temp_tiles" in
  os_makedirs tile_dir true ;;
  tile_features <- geemap.fishnet ee_shp 2 2 ;;
  for_ bands
    (fun band =>
       mosaic_list <- glob_glob tile_dir ("sentinel2_" ^^ band ^^ "_*.tif") ;;
       let mosaic_out := Py.os_path_join out_folder ("sentinel2_" ^^ band ^^ ".tif") in
       pr.mosaicRasters env mosaic_list mosaic_out "trim").

(** Lines 406-418.  Nothing in the function or the module binds
    [available_bands] or [s2_sr_median]. *)
Definition sentinel2_single (ee_geometry : EE) (bands : list string)
    (out_folder dst_crs : string) (out_res : Q) : M unit :=
  for_ bands
    (fun band =>
       let band_median := band ^^ "_median" in
       available_bands <- unbound (A:=list string) "available_bands" ;;
       if negb (existsb (String.eqb band_median) available_bands) then
         ret tt
       else
         s2_sr_median <- unbound (A:=EE) "s2_sr_median" ;;
         image <- ee.select s2_sr_median (Str band_median) ;;
         geemap.download_ee_image image
           (Py.os_path_join out_folder ("sentinel2_" ^^ band ^^ ".tif"))
           ee_geometry dst_crs out_res None None).

Definition get_sentinel2
    (ee_project_id aoi_shp_path : string) (start_date end_date : list string)
    (out_folder : string) (bands : option (list string)) (out_epsg : option Z)
    (out_res : Q) (cloud_filter cloud_prob_thresh : Z) (nir_dark_thresh : Q)
    (cloud_proj_dist buffer : Z) : M unit :=
  ee.Authenticate ;;
  ee.Initialize ee_project_id ;;
  let dst_crs := "EPSG:" ^^ Py.str_of_opt_int out_epsg in
  let bands := match bands with None => sentinel2_bands | Some bands => bands end in
  '(bbox, ee_shp, ee_geometry) <- _get_aoi aoi_shp_path ;;
  let large_aoi := Aoi.on_bounds Aoi.s2_large_aoi bbox in
  if large_aoi then sentinel2_tiled ee_shp bands out_folder
  else sentinel2_single ee_geometry bands out_folder dst_crs out_res.

End ProcessGEE.

(** ** Observations on a run *)

Definition is_tiled_download (e : Event) : bool :=
  match e with
  | geemap_download_ee_image_tiles _ _ _ _ _ _ _ _ => true
  | _ => false
  end.

Definition is_single_download (e : Event) : bool :=
  match e with
  | geemap_download_ee_image _ _ _ _ _ _ _ => true
  | _ => false
  end.

Definition is_download (e : Event) : bool := is_tiled_download e || is_single_download e.

Definition is_tiling_step (e : Event) : bool :=
  match e with
  | geemap_fishnet _ _ _ => true
  | geemap_download_ee_image_tiles _ _ _ _ _ _ _ _ => true
  | pr_mosaicRasters _ _ _ => true
  | _ => false
  end.



(** The strategy each public function settles on for a shapefile. *)
Definition dynworld_strategy (env : Env) (aoi_shp_path : string) : Aoi.strategy :=
  Aoi.strategy_of
    (Aoi.on_bounds Aoi.dw_large_aoi (Aoi.total_bounds (shapefile env aoi_shp_path))).

Definition sentinel2_strategy (env : Env) (aoi_shp_path : string) : Aoi.strategy :=
  Aoi.strategy_of
    (Aoi.on_bounds Aoi.s2_large_aoi (Aoi.total_bounds (shapefile env aoi_shp_path))).

(** Every event of every run of [m] passes [P], and a value it returns
    satisfies [Q]. *)
Definition sound {A} (P : Event -> bool) (Q : A -> Prop) (m : M A) : Prop :=
  forall fs, forallb P (trace (m fs)) = true /\ (forall a, res (m fs) = Ok a -> Q a).

(** When [m] returns, the file system satisfies [I]. *)
Definition ensures {A} (I : FS -> Prop) (m : M A) : Prop :=
  forall fs a, res (m fs) = Ok a -> I (fs_after (m fs)).

(** ** Collections as the specification describes them *)

(** A source collection filtered to the AOI bounds and to one window
    (start date, end date). *)
Definition filtered (source : string) (aoi : EE) (w : string * string) : EE :=
  Apply Collection_filterDate
    [Apply Collection_filterBounds [Apply ImageCollection_load [Str source]; aoi];
     Str (fst w); Str (snd w)].

(** The Sentinel-2 collection of one window: the surface-reflectance images
    under the cloud-cover limit, each joined with its cloud-probability
    image. *)
Definition s2_joined (aoi : EE) (cloud_filter : Z) (w : string * string) : EE :=
  Apply ImageCollection_cast
    [Apply Join_apply
       [Apply Join_saveFirst [Str "s2cloudless"];
        Apply Collection_filter
          [filtered "COPERNICUS/S2_SR_HARMONIZED" aoi w;
           Apply Filter_lte [Str "CLOUDY_PIXEL_PERCENTAGE"; Num (inject_Z cloud_filter)]];
        filtered "COPERNICUS/S2_CLOUD_PROBABILITY" aoi w;
        Apply Filter_equals [Str "system:index"; Str "system:index"]]].

(** The merge of a list of collections, first to last. *)
Definition merge_onto (c : EE) (cs : list EE) : EE :=
  fold_left (fun acc c' => Apply ImageCollection_merge [acc; c']) cs c.

Definition merged (cs : list EE) : option EE :=
  match cs with
  | [] => None
  | c :: cs' => Some (merge_onto c cs')
  end.

(** A call of a server function that builds or processes imagery: every
    function of the client but the one that takes the geometry of the AOI. *)
Definition is_processing (e : Event) : bool :=
  match e with
  | ee_call FeatureCollection_geometry _ => false
  | ee_call _ _ => true
  | ee_getInfo _ => true
  | _ => false
  end.

(** A run with the events [t] in front. *)
Definition after {A} (t : list Event) (r : Run A) : Run A :=
  MkRun (res r) (fs_after r) (t ++ trace r).

(** The land-cover composite of a collection (lines 115-116) and the calls
    made between building the collection and downloading the composite. *)
Definition dw_composite_of (landcover_col : EE) : EE :=
  Apply ImageCollection_reduce
    [Apply ImageCollection_select [landcover_col; Str "label"]; Apply Reducer_mode []].

Definition dw_composite_calls (landcover_col : EE) : list Event :=
  [ee_call Collection_aggregate_array [landcover_col; Str "system:index"];
   ee_getInfo (Apply Collection_aggregate_array [landcover_col; Str "system:index"]);
   ee_call ImageCollection_select [landcover_col; Str "label"];
   ee_call Reducer_mode [];
   ee_call ImageCollection_reduce
     [Apply ImageCollection_select [landcover_col; Str "label"]; Apply Reducer_mode []]].




(** A call of the mosaic helper writes [out_file]. *)
Definition mosaics_into (out_file : string) (e : Event) : bool :=
  match e with
  | pr_mosaicRasters _ out _ => out =? out_file
  | _ => false
  end.

Definition is_mosaic (e : Event) : bool :=
  match e with
  | pr_mosaicRasters _ _ _ => true
  | _ => false
  end.

(** ** Sample inputs *)

Module Sample.

(** A square of two degrees by two. *)
Definition big_square : Aoi.GeoDataFrame :=
  [Aoi.Polygon [(0, 0); (2, 0); (2, 2); (0, 2); (0, 0)] []].

(** Another shape with the same bounds: a triangle and a pierced square. *)
Definition big_pieces : Aoi.GeoDataFrame :=
  [Aoi.Polygon [(0, 0); (2, 0); (0, 1); (0, 0)] [];
   Aoi.Polygon [(1, 1); (2, 1); (2, 2); (1, 2); (1, 1)]
     [[(5 # 4, 5 # 4); (3 # 2, 5 # 4); (3 # 2, 3 # 2); (5 # 4, 5 # 4)]]].

(** A square of exactly one degree by one. *)
Definition unit_square : Aoi.GeoDataFrame :=
  [Aoi.Polygon [(0, 0); (1, 0); (1, 1); (0, 1); (0, 0)] []].

Definition env : Env :=
  {| shapefile := fun p =>
       if p =? "big.shp" then big_square
       else if p =? "pieces.shp" then big_pieces
       else unit_square;
     feature_count := fun _ => 4%nat;
     mosaic_accepts := fun l => negb (Nat.eqb (List.length l) 0);
     cpu_count := Some 8%nat |}.

Definition dates_from : list string := ["2023-06-01"; "2024-06-01"].
Definition dates_to : list string := ["2023-09-01"; "2024-09-01"].

Definition aoi : EE := Apply FeatureCollection_geometry [Shp "big.shp"].

(** Tiles of an earlier Sentinel-2 download, still in the tile folder. *)
Definition old_tiles : FS :=
  [("out/temp_tiles", Dir);
   ("out/temp_tiles/sentinel2_B2_1.tif", File);
   ("out/temp_tiles/sentinel2_B2_2.tif", File)].

Definition dynworld (shp : string) (bands : option (list string))
    (prob_type : option string) : M unit :=
  get_dynworld_landcover env "project" shp dates_from dates_to "out" bands
    (Some 4326%Z) 10 prob_type.

Definition sentinel2 (shp : string) (bands : option (list string)) : M unit :=
  get_sentinel2 env "project" shp dates_from dates_to "out" bands
    (Some 4326%Z) (1 # 10000) 15 40 (15 # 100) 2 0.

End Sample.

(** ** Further observations *)

(** The rasters the mosaic helper was asked to write, in order. *)
Definition mosaic_outputs (t : list Event) : list string :=
  flat_map (fun e => match e with pr_mosaicRasters _ out _ => [out] | _ => [] end) t.


(** A call that asks the server for data or writes a raster. *)
Definition moves_data (e : Event) : bool :=
  match e with
  | ee_getInfo _ => true
  | _ => is_download e || is_tiling_step e
  end.

(** Every path of [fs] is still there in [fs'], as the same kind of entry. *)
Definition kept (fs fs' : FS) : Prop :=
  forall p k, lookup fs p = Some k -> lookup fs' p = Some k.


(** Whatever [m] does and however it ends, the file system it leaves is
    related by [R] to the one it found, and a value it returns satisfies
    [Q]. *)
Definition changes {A} (R : FS -> FS -> Prop) (Q : A -> Prop) (m : M A) : Prop :=
  forall fs, R fs (fs_after (m fs)) /\ (forall a, res (m fs) = Ok a -> Q a).

(** [d] with the separator that glob puts between it and a name. *)
Definition with_sep (d : string) : string := if Py.endswith d "/" then d else d ^^ "/".

(** What glob asks of a name for it to be listed under a pattern. *)
Definition listed (pattern name : string) : bool :=
  (negb (Py.ishidden name) || Py.ishidden pattern) && Py.fnmatch name pattern.

(** When [m] is run on a file system that satisfies [pre] and returns [a],
    the file system it leaves satisfies [post a]. *)
Definition triple {A} (pre : FS -> Prop) (m : M A) (post : A -> FS -> Prop) : Prop :=
  forall fs, pre fs -> forall a, res (m fs) = Ok a -> post a (fs_after (m fs)).

(** The separator [posixpath.join] puts after a folder. *)
Definition join_sep (a : string) : string :=
  if (a =? "") || Py.endswith a "/" then "" else "/".

(** The state of the output folder after a tiled land-cover download that
    went through: no tile folder, nothing below where it was, and the
    land-cover raster. *)
Definition tiles_cleaned (out_folder : string) (fs : FS) : Prop :=
  exists_ fs (Py.os_path_join out_folder "temp_tiles") = false
  /\ is_empty_dir fs (Py.os_path_join out_folder "temp_tiles") = true
  /\ exists_ fs (Py.os_path_join out_folder "landcover.tif") = true.

(** * Facts *)

(** ** The bounding-box test *)

Lemma Qgtb_lt (a b : Q) : Aoi.Qgtb a b = true <-> b < a.
Proof.
  unfold Aoi.Qgtb. rewrite negb_true_iff. split.
  - intro H. apply Qnot_le_lt. intro L. apply Qle_bool_iff in L. congruence.
  - intro H. destruct (Qle_bool a b) eqn:E; [|reflexivity].
    apply Qle_bool_iff in E. exfalso. exact (Qlt_not_le _ _ H E).
Qed.

Lemma dw_large_aoi_eq (bbox : Aoi.BBox) :
  Aoi.dw_large_aoi bbox = Aoi.large_aoi_labelled bbox.
Proof.
  destruct bbox as [[[a b] c] d]. unfold Aoi.dw_large_aoi, Aoi.large_aoi_labelled.
  rewrite orb_comm. destruct (_ || _); reflexivity.
Qed.

Lemma s2_large_aoi_eq (bbox : Aoi.BBox) :
  Aoi.s2_large_aoi bbox = Aoi.large_aoi_labelled bbox.
Proof.
  destruct bbox as [[[a b] c] d]. unfold Aoi.s2_large_aoi, Aoi.large_aoi_labelled.
  apply orb_comm.
Qed.

Lemma large_aoi_labelled_spec (bbox : Aoi.BBox) :
  Aoi.large_aoi_labelled bbox = true <-> 1 < Aoi.x_extent bbox \/ 1 < Aoi.y_extent bbox.
Proof.
  destruct bbox as [[[xmin ymin] xmax] ymax].
  unfold Aoi.large_aoi_labelled, Aoi.x_extent, Aoi.y_extent.
  rewrite orb_true_iff, !Qgtb_lt. tauto.
Qed.

(** The threshold is strict: one degree by one degree is not large. *)
Example one_degree_is_single_shot :
  dynworld_strategy Sample.env "unit.shp" = Aoi.SingleShot
  /\ sentinel2_strategy Sample.env "unit.shp" = Aoi.SingleShot
  /\ dynworld_strategy Sample.env "big.shp" = Aoi.Tiled.
Proof. repeat split. Qed.

(** ** Running the monad *)

Lemma bind_emit {B} (e : Event) (k : unit -> M B) (fs : FS) :
  bind (emit e) k fs = MkRun (res (k tt fs)) (fs_after (k tt fs)) (e :: trace (k tt fs)).
Proof. unfold bind, emit. destruct (k tt fs); reflexivity. Qed.

Lemma bind_ret {A B} (a : A) (k : A -> M B) (fs : FS) : bind (ret a) k fs = k a fs.
Proof. unfold bind, ret. destruct (k a fs); reflexivity. Qed.


Lemma bind_emit_ret {A B} (e : Event) (a : A) (k : A -> M B) (fs : FS) :
  bind (emit e ;; ret a) k fs
  = MkRun (res (k a fs)) (fs_after (k a fs)) (e :: trace (k a fs)).
Proof. unfold bind, emit, ret. simpl. destruct (k _ fs); reflexivity. Qed.

Lemma bind_Ok {A B} (m : M A) (k : A -> M B) (fs : FS) (a : A) :
  res (m fs) = Ok a ->
  bind m k fs =
  MkRun (res (k a (fs_after (m fs)))) (fs_after (k a (fs_after (m fs))))
        (trace (m fs) ++ trace (k a (fs_after (m fs)))).
Proof.
  unfold bind. destruct (m fs) as [r fs1 t1]. simpl. intros ->.
  destruct (k a fs1); reflexivity.
Qed.

Lemma bind_Raise {A B} (m : M A) (k : A -> M B) (fs : FS) (e : exn) :
  res (m fs) = Raise e ->
  bind m k fs = MkRun (Raise e) (fs_after (m fs)) (trace (m fs)).
Proof. unfold bind. destruct (m fs) as [r fs1 t1]. simpl. intros ->. reflexivity. Qed.

Lemma bind_Ok_inv {A B} (m : M A) (k : A -> M B) (fs : FS) (b : B) :
  res (bind m k fs) = Ok b ->
  exists a, res (m fs) = Ok a
            /\ res (k a (fs_after (m fs))) = Ok b
            /\ fs_after (bind m k fs) = fs_after (k a (fs_after (m fs))).
Proof.
  intro H. destruct (res (m fs)) as [a|e] eqn:E.
  - rewrite (bind_Ok _ _ _ E) in *. eauto.
  - rewrite (bind_Raise _ _ _ E) in H. discriminate.
Qed.

(** ** Rules for [sound] *)

Section SoundRules.

Variable P : Event -> bool.

Lemma sound_ret {A} (Q : A -> Prop) (a : A) : Q a -> sound P Q (ret a).
Proof. intros H fs. split; [reflexivity|]. simpl. intros b [= <-]. exact H. Qed.

Lemma sound_raise {A} (Q : A -> Prop) (e : exn) : sound P Q (raise e).
Proof. intros fs. split; [reflexivity|]. simpl. discriminate. Qed.

Lemma sound_emit (Q : unit -> Prop) (e : Event) :
  P e = true -> Q tt -> sound P Q (emit e).
Proof.
  intros He Hq fs. split; simpl.
  - rewrite He. reflexivity.
  - intros [] _. exact Hq.
Qed.

Lemma sound_get_fs (Q : FS -> Prop) : (forall fs, Q fs) -> sound P Q get_fs.
Proof. intros H fs. split; [reflexivity|]. simpl. intros a _. apply H. Qed.

Lemma sound_put_fs (Q : unit -> Prop) (fs' : FS) : Q tt -> sound P Q (put_fs fs').
Proof. intros H fs. split; [reflexivity|]. simpl. intros [] _. exact H. Qed.

Lemma sound_bind {A B} (Q : A -> Prop) (Q' : B -> Prop) (m : M A) (k : A -> M B) :
  sound P Q m -> (forall a, Q a -> sound P Q' (k a)) -> sound P Q' (bind m k).
Proof.
  intros Hm Hk fs. destruct (Hm fs) as [Ht Hq].
  destruct (res (m fs)) as [a|e] eqn:E.
  - rewrite (bind_Ok _ _ _ E). simpl.
    destruct (Hk a (Hq a eq_refl) (fs_after (m fs))) as [Ht' Hq'].
    split; [rewrite forallb_app, Ht, Ht'; reflexivity | exact Hq'].
  - rewrite (bind_Raise _ _ _ E). simpl. split; [exact Ht | discriminate].
Qed.

Lemma sound_call (Q : EE -> Prop) (f : ee_fn) (args : list EE) :
  P (ee_call f args) = true -> Q (Apply f args) -> sound P Q (call f args).
Proof.
  intros He Hq. unfold call.
  apply sound_bind with (Q := fun _ => True).
  - apply sound_emit; trivial.
  - intros _ _. apply sound_ret. exact Hq.
Qed.

Lemma sound_index {A} (l : list A) (i : nat) : sound P (fun _ => True) (index l i).
Proof.
  unfold index. destruct (nth_error l i); [apply sound_ret; trivial | apply sound_raise].
Qed.

Lemma sound_for_ {A} (l : list A) (body : A -> M unit) :
  (forall x, sound P (fun _ => True) (body x)) -> sound P (fun _ => True) (for_ l body).
Proof.
  intros Hb. induction l as [|x l IH]; simpl.
  - apply sound_ret; trivial.
  - apply sound_bind with (Q := fun _ => True); [apply Hb | intros _ _; exact IH].
Qed.

Lemma sound_for_acc {A S} (l : list A) (acc : S) (body : S -> A -> M S) :
  (forall s x, sound P (fun _ => True) (body s x)) ->
  sound P (fun _ => True) (for_acc l acc body).
Proof.
  intros Hb. revert acc. induction l as [|x l IH]; intros acc; simpl.
  - apply sound_ret; trivial.
  - apply sound_bind with (Q := fun _ => True); [apply Hb | intros s _; apply IH].
Qed.

End SoundRules.

Create HintDb script discriminated.

#[local] Hint Unfold
  ee.Authenticate ee.Initialize ee.getInfo ee.ImageCollection ee.ImageCollection_of
  ee.filterBounds ee.filterDate ee.filter ee.merge ee.aggregate_array ee.select_col
  ee.reduce ee.geometry ee.map ee.get ee.Number ee.subtract ee.Image ee.select ee.gt
  ee.lt ee.neq ee.rename ee.addBands ee.multiply ee.add ee.Not ee.mask ee.updateMask
  ee.projection ee.reproject ee.directionalDistanceTransform ee.focalMin ee.focalMax
  ee.Reducer.mode ee.Reducer.mean ee.Reducer.median ee.Filter.lte ee.Filter.equals
  ee.Join.saveFirst ee.Join.apply
  geemap.shp_to_ee geemap.fishnet geemap.download_ee_image_tiles
  geemap.download_ee_image gpd.read_file pr.mosaicRasters
  os_path_exists os_makedirs os_remove os_rmdir glob_glob write_file unbound
  : script.

(** One step of a proof that every event of a piece of the script passes a
    test: follow the shape of the code. *)
Ltac sound_step :=
  match goal with
  | |- sound _ _ (bind (raise _) _) =>
      apply sound_bind with (Q := fun _ => False); [apply sound_raise | intros ? []]
  | |- sound _ _ (bind (unbound _) _) =>
      apply sound_bind with (Q := fun _ => False); [apply sound_raise | intros ? []]
  | |- sound _ _ (bind _ _) => apply sound_bind with (Q := fun _ => True); [|intros ? _]
  | |- sound _ _ (ret _) => apply sound_ret; exact I
  | |- sound _ _ (raise _) => apply sound_raise
  | |- sound _ _ (emit _) => apply sound_emit; [reflexivity | exact I]
  | |- sound _ _ (call _ _) => apply sound_call; [reflexivity | exact I]
  | |- sound _ _ get_fs => apply sound_get_fs; intros; exact I
  | |- sound _ _ (put_fs _) => apply sound_put_fs; exact I
  | |- sound _ _ (index _ _) => apply sound_index
  | |- sound _ _ (for_ _ _) => apply sound_for_; intros ?
  | |- sound _ _ (for_acc _ _ _) => apply sound_for_acc; intros ? ?
  | |- sound _ _ (let _ := _ in _) => cbv zeta
  | |- sound _ _ (if true then _ else _) => cbv iota
  | |- sound _ _ (if false then _ else _) => cbv iota
  | |- sound _ _ (if ?b then _ else _) => destruct b
  | |- sound _ _ (match ?x with _ => _ end) => destruct x
  | |- sound _ _ _ => progress autounfold with script
  end.

(** ** The collection builders *)

Lemma nth_error_combine {A B} (l : list A) (l' : list B) (i : nat) (a : A) (b : B) :
  nth_error l i = Some a -> nth_error l' i = Some b ->
  nth_error (combine l l') i = Some (a, b).
Proof.
  revert l l'. induction i as [|i IH]; intros [|x l] [|y l']; simpl; try discriminate.
  - intros [= ->] [= ->]. reflexivity.
  - apply IH.
Qed.

Lemma skipn_nth_error {A} (l : list A) (i : nat) (a : A) :
  nth_error l i = Some a -> skipn i l = a :: skipn (S i) l.
Proof.
  revert l. induction i as [|i IH]; intros [|x l]; simpl; try discriminate.
  - intros [= ->]. reflexivity.
  - intro H. apply IH in H. exact H.
Qed.

Lemma nth_error_paired {A} (sd ed : list A) (i : nat) :
  List.length sd = List.length ed -> (i < List.length sd)%nat ->
  exists s e, nth_error sd i = Some s /\ nth_error ed i = Some e.
Proof.
  intros Hlen Hi.
  destruct (nth_error sd i) as [s|] eqn:Es.
  - destruct (nth_error ed i) as [e|] eqn:Ee; [eauto|].
    apply nth_error_None in Ee. lia.
  - apply nth_error_None in Es. lia.
Qed.

Lemma dynworld_window_run (aoi : EE) (sd ed : list string) (i : nat) (s e : string) (fs : FS) :
  nth_error sd i = Some s -> nth_error ed i = Some e ->
  res (dynworld_window aoi sd ed i fs) = Ok (filtered "GOOGLE/DYNAMICWORLD/V1" aoi (s, e))
  /\ fs_after (dynworld_window aoi sd ed i fs) = fs.
Proof.
  intros Hs He. unfold dynworld_window, index, bind. rewrite Hs, He. simpl. auto.
Qed.

Lemma s2_window_run (aoi : EE) (sd ed : list string) (cf : Z) (i : nat) (s e : string) (fs : FS) :
  nth_error sd i = Some s -> nth_error ed i = Some e ->
  res (s2_window aoi sd ed cf i fs) = Ok (s2_joined aoi cf (s, e))
  /\ fs_after (s2_window aoi sd ed cf i fs) = fs.
Proof.
  intros Hs He. unfold s2_window, index, bind. rewrite Hs, He. simpl. auto.
Qed.

(** The loop of both builders: merging the windows [k], [k+1], ... onto what
    has been collected so far. *)
Lemma merge_loop (window : nat -> M EE) (W : string * string -> EE)
    (sd ed : list string) :
  List.length sd = List.length ed ->
  (forall i s e fs, nth_error sd i = Some s -> nth_error ed i = Some e ->
     res (window i fs) = Ok (W (s, e)) /\ fs_after (window i fs) = fs) ->
  forall m k acc fs, (k + m = List.length sd)%nat ->
    let loop := for_acc (seq k m) acc (fun acc i => c <- window i ;; ee.merge acc c) in
    res (loop fs) = Ok (merge_onto acc (List.map W (skipn k (combine sd ed))))
    /\ fs_after (loop fs) = fs.
Proof.
  intros Hlen Hw. induction m as [|m IH]; intros k acc fs Hk loop; subst loop.
  - simpl. rewrite skipn_all2; [auto|]. rewrite length_combine. lia.
  - destruct (@nth_error_paired _ sd ed k Hlen ltac:(lia)) as (s & e & Hs & He).
    destruct (Hw k s e fs Hs He) as [Hr Hf].
    change (seq k (S m)) with (k :: seq (S k) m). cbn [for_acc].
    rewrite (skipn_nth_error _ _ (nth_error_combine _ _ _ Hs He)).
    assert (Hb : res ((c <- window k ;; ee.merge acc c) fs)
                 = Ok (Apply ImageCollection_merge [acc; W (s, e)])
                 /\ fs_after ((c <- window k ;; ee.merge acc c) fs) = fs).
    { rewrite (bind_Ok _ _ _ Hr), Hf. split; reflexivity. }
    destruct Hb as [Hb1 Hb2].
    rewrite (bind_Ok _ _ _ Hb1). cbn [res fs_after]. rewrite Hb2.
    apply IH. lia.
Qed.

Lemma _get_dynworld_col_run (aoi : EE) (s e : string) (sd ed : list string) (fs : FS) :
  List.length sd = List.length ed ->
  res (_get_dynworld_col aoi (s :: sd) (e :: ed) fs)
  = Ok (merge_onto (filtered "GOOGLE/DYNAMICWORLD/V1" aoi (s, e))
          (List.map (filtered "GOOGLE/DYNAMICWORLD/V1" aoi) (combine sd ed)))
  /\ fs_after (_get_dynworld_col aoi (s :: sd) (e :: ed) fs) = fs.
Proof.
  intro Hlen. unfold _get_dynworld_col.
  destruct (@dynworld_window_run aoi (s :: sd) (e :: ed) 0 s e fs eq_refl eq_refl)
    as [Hr Hf].
  rewrite (bind_Ok _ _ _ Hr), Hf. cbn [res fs_after].
  replace (range 1 (List.length (s :: sd))) with (seq 1 (List.length sd))
    by (unfold range; simpl; f_equal; lia).
  apply (@merge_loop (dynworld_window aoi (s :: sd) (e :: ed))
           (filtered "GOOGLE/DYNAMICWORLD/V1" aoi) (s :: sd) (e :: ed)).
  - simpl. congruence.
  - intros. apply dynworld_window_run; assumption.
  - reflexivity.
Qed.

Lemma _get_s2_sr_cld_col_run (aoi : EE) (s e : string) (sd ed : list string) (cf : Z)
    (fs : FS) :
  List.length sd = List.length ed ->
  res (_get_s2_sr_cld_col aoi (s :: sd) (e :: ed) cf fs)
  = Ok (merge_onto (s2_joined aoi cf (s, e)) (List.map (s2_joined aoi cf) (combine sd ed)))
  /\ fs_after (_get_s2_sr_cld_col aoi (s :: sd) (e :: ed) cf fs) = fs.
Proof.
  intro Hlen. unfold _get_s2_sr_cld_col.
  destruct (@s2_window_run aoi (s :: sd) (e :: ed) cf 0 s e fs eq_refl eq_refl)
    as [Hr Hf].
  rewrite (bind_Ok _ _ _ Hr), Hf. cbn [res fs_after].
  destruct (negb (List.length (s :: sd) =? 1)%nat) eqn:E.
  - replace (range 1 (List.length (s :: sd))) with (seq 1 (List.length sd))
      by (unfold range; simpl; f_equal; lia).
    apply (@merge_loop (s2_window aoi (s :: sd) (e :: ed) cf)
             (s2_joined aoi cf) (s :: sd) (e :: ed)).
    + simpl. congruence.
    + intros. apply s2_window_run; assumption.
    + reflexivity.
  - apply negb_false_iff, Nat.eqb_eq in E. simpl in E.
    destruct sd; [|discriminate]. simpl. auto.
Qed.

(** C6: for a non-empty list of paired start and end dates, each builder
    returns the merge, first window to last, of the per-window collections:
    for Dynamic World the source collection filtered to the AOI bounds and
    to the window's dates, for Sentinel-2 the join of the two source
    collections filtered in that way. *)
Theorem C6_collection_is_merge_of_windows
    (aoi : EE) (start_date end_date : list string) (cloud_filter : Z) (fs : FS) :
  start_date <> [] ->
  List.length start_date = List.length end_date ->
  (exists c,
      merged (List.map (filtered "GOOGLE/DYNAMICWORLD/V1" aoi)
                (combine start_date end_date)) = Some c
      /\ res (_get_dynworld_col aoi start_date end_date fs) = Ok c)
  /\ (exists c,
      merged (List.map (s2_joined aoi cloud_filter)
                (combine start_date end_date)) = Some c
      /\ res (_get_s2_sr_cld_col aoi start_date end_date cloud_filter fs) = Ok c).
Proof.
  intros Hne Hlen.
  destruct start_date as [|s sd]; [congruence|].
  destruct end_date as [|e ed]; [discriminate|].
  injection Hlen as Hlen. simpl combine. cbn [List.map merged].
  split; eexists; (split; [reflexivity|]).
  - apply _get_dynworld_col_run, Hlen.
  - apply _get_s2_sr_cld_col_run, Hlen.
Qed.

Lemma C6_witness :
  res (_get_dynworld_col Sample.aoi Sample.dates_from Sample.dates_to [])
  = Ok (Apply ImageCollection_merge
          [filtered "GOOGLE/DYNAMICWORLD/V1" Sample.aoi ("2023-06-01", "2023-09-01");
           filtered "GOOGLE/DYNAMICWORLD/V1" Sample.aoi ("2024-06-01", "2024-09-01")]).
Proof.
  destruct (@C6_collection_is_merge_of_windows Sample.aoi Sample.dates_from
              Sample.dates_to 15 [] ltac:(discriminate) eq_refl)
    as [(c & Hc & Hr) _].
  injection Hc as <-. exact Hr.
Defined.

(** ** Which calls a run can make *)

#[local] Hint Unfold
  _get_dynworld_col dynworld_window dynworld_class dynworld_probability
  _get_s2_sr_cld_col s2_window sentinel2_tiled sentinel2_single
  _add_cloud_bands _add_cloud_bands_to_collection _add_shadow_bands
  _add_cld_shdw_mask _add_cld_shdw_mask_to_collection _apply_cld_shdw_mask
  : script.

Lemma _get_aoi_run (env : Env) (shp_path : string) (fs : FS) :
  _get_aoi env shp_path fs
  = MkRun (Ok (Aoi.total_bounds (shapefile env shp_path), Shp shp_path,
               Apply FeatureCollection_geometry [Shp shp_path]))
      fs
      [geemap_shp_to_ee shp_path;
       ee_call FeatureCollection_geometry [Shp shp_path];
       gpd_read_file shp_path].
Proof. reflexivity. Qed.

Lemma _get_aoi_sound (P : Event -> bool) (env : Env) (shp_path : string) :
  P (geemap_shp_to_ee shp_path) = true ->
  P (ee_call FeatureCollection_geometry [Shp shp_path]) = true ->
  P (gpd_read_file shp_path) = true ->
  sound P
    (fun r => r = (Aoi.total_bounds (shapefile env shp_path), Shp shp_path,
                   Apply FeatureCollection_geometry [Shp shp_path]))
    (_get_aoi env shp_path).
Proof.
  intros H1 H2 H3 fs. rewrite _get_aoi_run. simpl. rewrite H1, H2, H3.
  split; [reflexivity|]. intros a [= <-]. reflexivity.
Qed.

(** The public functions: past [_get_aoi] the bounding box is known, and a
    test on it that has been decided is used as decided. *)
Ltac script_step :=
  match goal with
  | |- sound _ _ (bind (_get_aoi _ _) _) =>
      eapply sound_bind;
      [apply _get_aoi_sound; reflexivity | intros [[? ?] ?] [= -> -> ->]]
  | H : ?b = _ |- sound _ _ (if ?b then _ else _) => rewrite H
  | |- _ => sound_step
  end.

Ltac script_auto := repeat script_step.



(** ** The download strategy *)

(** C9: the four bounds are unpacked under swapped names, yet the test the
    two functions compute is the test on the rightly named coordinates, for
    every bounding box. *)
Theorem C9_swapped_names_same_decision (bbox : Aoi.BBox) :
  Aoi.dw_large_aoi bbox = Aoi.large_aoi_labelled bbox
  /\ Aoi.s2_large_aoi bbox = Aoi.large_aoi_labelled bbox.
Proof. split; [apply dw_large_aoi_eq | apply s2_large_aoi_eq]. Qed.



(** ** Order of the calls *)

(** C7: in every run of either public function the first two calls that
    leave the script are [ee.Authenticate] and [ee.Initialize]; every other
    call comes after them. *)
Theorem C7_authentication_comes_first (env : Env)
    (ee_project_id aoi_shp_path : string) (start_date end_date : list string)
    (out_folder : string) (bands : option (list string)) (out_epsg : option Z)
    (out_res : Q) (prob_type : option string)
    (cloud_filter cloud_prob_thresh : Z) (nir_dark_thresh : Q)
    (cloud_proj_dist buffer : Z) (fs : FS) :
  (exists rest,
      trace (get_dynworld_landcover env ee_project_id aoi_shp_path start_date
               end_date out_folder bands out_epsg out_res prob_type fs)
      = ee_Authenticate :: ee_Initialize ee_project_id :: rest)
  /\ (exists rest,
      trace (get_sentinel2 env ee_project_id aoi_shp_path start_date end_date
               out_folder bands out_epsg out_res cloud_filter cloud_prob_thresh
               nir_dark_thresh cloud_proj_dist buffer fs)
      = ee_Authenticate :: ee_Initialize ee_project_id :: rest).
Proof.
  split.
  - unfold get_dynworld_landcover, ee.Authenticate, ee.Initialize.
    rewrite !bind_emit. cbn [trace]. eexists. reflexivity.
  - unfold get_sentinel2, ee.Authenticate, ee.Initialize.
    rewrite !bind_emit. cbn [trace]. eexists. reflexivity.
Qed.

(** ** The Sentinel-2 path *)

Lemma trace_bind_prefix {A B} (m : M A) (k : A -> M B) (fs : FS) :
  exists rest, trace (bind m k fs) = trace (m fs) ++ rest.
Proof.
  destruct (res (m fs)) as [a|e] eqn:E.
  - rewrite (bind_Ok _ _ _ E). simpl. eauto.
  - rewrite (bind_Raise _ _ _ E). simpl. exists []. rewrite app_nil_r. reflexivity.
Qed.

Lemma existsb_bind_l {A B} (P : Event -> bool) (m : M A) (k : A -> M B) (fs : FS) :
  existsb P (trace (m fs)) = true -> existsb P (trace (bind m k fs)) = true.
Proof.
  intro H. destruct (trace_bind_prefix m k fs) as [rest ->].
  rewrite existsb_app, H. reflexivity.
Qed.

(** The first call a helper makes shows in the log. *)
Ltac first_call :=
  repeat first [progress autounfold with script | apply existsb_bind_l];
  reflexivity.

(** C4: a run of [get_sentinel2] calls no server function that builds or
    processes imagery, whatever the inputs: no collection is built, no cloud
    or shadow band added, no mask applied, nothing reduced.  Each of the
    helpers that would do so starts with such a call, so none of them is
    ever entered. *)
Theorem C4_sentinel2_processes_nothing (env : Env)
    (ee_project_id aoi_shp_path : string) (start_date end_date : list string)
    (out_folder : string) (bands : option (list string)) (out_epsg : option Z)
    (out_res : Q) (cloud_filter cloud_prob_thresh : Z) (nir_dark_thresh : Q)
    (cloud_proj_dist buffer : Z) (fs : FS) :
  forallb (fun e => negb (is_processing e))
    (trace (get_sentinel2 env ee_project_id aoi_shp_path start_date end_date
              out_folder bands out_epsg out_res cloud_filter cloud_prob_thresh
              nir_dark_thresh cloud_proj_dist buffer fs)) = true
  /\ (forall aoi fs',
        existsb is_processing
          (trace (_get_s2_sr_cld_col aoi start_date end_date cloud_filter fs')) = true)
  /\ (forall img fs',
        existsb is_processing (trace (_add_cloud_bands img cloud_prob_thresh fs')) = true)
  /\ (forall col fs',
        existsb is_processing
          (trace (_add_cloud_bands_to_collection col cloud_prob_thresh fs')) = true)
  /\ (forall img fs',
        existsb is_processing
          (trace (_add_shadow_bands img nir_dark_thresh cloud_proj_dist fs')) = true)
  /\ (forall img fs',
        existsb is_processing
          (trace (_add_cld_shdw_mask img buffer cloud_prob_thresh nir_dark_thresh
                    cloud_proj_dist fs')) = true)
  /\ (forall col fs',
        existsb is_processing
          (trace (_add_cld_shdw_mask_to_collection col buffer cloud_prob_thresh
                    nir_dark_thresh cloud_proj_dist fs')) = true)
  /\ (forall img fs',
        existsb is_processing (trace (_apply_cld_shdw_mask img fs')) = true)
  /\ (forall col fs',
        existsb is_processing
          (trace ((r <- ee.Reducer.median ;; ee.reduce col r) fs')) = true).
Proof.
  split.
  - assert (H : sound (fun e => negb (is_processing e)) (fun _ => True)
                  (get_sentinel2 env ee_project_id aoi_shp_path start_date end_date
                     out_folder bands out_epsg out_res cloud_filter cloud_prob_thresh
                     nir_dark_thresh cloud_proj_dist buffer)).
    { unfold get_sentinel2. script_auto. }
    apply H.
  - repeat split; intros; first_call.
Qed.

(** C5, as the code has it: for an AOI that is not large, when at least one
    band is asked for ([bands] is [None], which stands for the five default
    bands, or a non-empty list), [get_sentinel2] ends in the NameError of
    [available_bands], after the three calls that load the AOI and before
    any download; the file system is as it was. *)
Theorem C5_small_aoi_sentinel2_raises_NameError (env : Env)
    (ee_project_id aoi_shp_path : string) (start_date end_date : list string)
    (out_folder : string) (bands : option (list string)) (out_epsg : option Z)
    (out_res : Q) (cloud_filter cloud_prob_thresh : Z) (nir_dark_thresh : Q)
    (cloud_proj_dist buffer : Z) (fs : FS) :
  sentinel2_strategy env aoi_shp_path = Aoi.SingleShot ->
  bands <> Some [] ->
  get_sentinel2 env ee_project_id aoi_shp_path start_date end_date out_folder
    bands out_epsg out_res cloud_filter cloud_prob_thresh nir_dark_thresh
    cloud_proj_dist buffer fs
  = MkRun (Raise (NameError "available_bands")) fs
      [ee_Authenticate; ee_Initialize ee_project_id; geemap_shp_to_ee aoi_shp_path;
       ee_call FeatureCollection_geometry [Shp aoi_shp_path];
       gpd_read_file aoi_shp_path].
Proof.
  unfold sentinel2_strategy. intros Hs Hb.
  destruct (Aoi.on_bounds Aoi.s2_large_aoi _) eqn:E; [discriminate|].
  unfold get_sentinel2, ee.Authenticate, ee.Initialize.
  rewrite !bind_emit. cbv zeta.
  rewrite (@bind_Ok _ _ (_get_aoi env aoi_shp_path) _ fs _ eq_refl).
  rewrite _get_aoi_run. cbn [res fs_after trace]. rewrite E.
  destruct bands as [[|b bs]|]; [congruence| |]; reflexivity.
Qed.

Lemma C5_witness :
  res (Sample.sentinel2 "unit.shp" None []) = Raise (NameError "available_bands").
Proof.
  unfold Sample.sentinel2.
  rewrite (@C5_small_aoi_sentinel2_raises_NameError Sample.env "project" "unit.shp"
             Sample.dates_from Sample.dates_to "out" None (Some 4326%Z) (1 # 10000)
             15 40 (15 # 100) 2 0 []); [reflexivity | reflexivity | discriminate].
Defined.

(** C5 as stated fails on an empty list of bands: the loop of the
    single-shot branch has no turn, no name is read, and the call returns. *)
Lemma C5_counterexample :
  ~ (sentinel2_strategy Sample.env "unit.shp" = Aoi.SingleShot ->
     exists name, res (Sample.sentinel2 "unit.shp" (Some []) []) = Raise (NameError name)).
Proof.
  intro H. destruct (H eq_refl) as [name Hn]. vm_compute in Hn. discriminate.
Qed.

(** ** The Dynamic World run, stage by stage *)

Lemma get_dynworld_landcover_run (env : Env)
    (ee_project_id aoi_shp_path : string) (start_date end_date : list string)
    (out_folder : string) (bands : option (list string)) (out_epsg : option Z)
    (out_res : Q) (prob_type : option string) (fs : FS) :
  let ee_geometry := Apply FeatureCollection_geometry [Shp aoi_shp_path] in
  let large_aoi :=
    Aoi.on_bounds Aoi.dw_large_aoi (Aoi.total_bounds (shapefile env aoi_shp_path)) in
  let dst_crs := "EPSG:" ^^ Py.str_of_opt_int out_epsg in
  let bands' := match bands with None => dynworld_bands | Some bands => bands end in
  get_dynworld_landcover env ee_project_id aoi_shp_path start_date end_date
    out_folder bands out_epsg out_res prob_type fs
  = after [ee_Authenticate; ee_Initialize ee_project_id; geemap_shp_to_ee aoi_shp_path;
           ee_call FeatureCollection_geometry [Shp aoi_shp_path];
           gpd_read_file aoi_shp_path]
      (bind (_get_dynworld_col ee_geometry start_date end_date)
         (fun landcover_col fs1 =>
            after (dw_composite_calls landcover_col)
              (bind (dynworld_class env large_aoi (dw_composite_of landcover_col)
                       ee_geometry ee_geometry out_folder dst_crs out_res)
                 (fun _ =>
                    match prob_type with
                    | Some prob_type =>
                        dynworld_probability env prob_type large_aoi landcover_col
                          ee_geometry ee_geometry bands' out_folder dst_crs out_res
                    | None => ret tt
                    end) fs1)) fs).
Proof.
  intros. subst ee_geometry large_aoi dst_crs bands'.
  lazy beta iota zeta delta
    [get_dynworld_landcover bind emit ret call after res fs_after trace
     ee.Authenticate ee.Initialize _get_aoi geemap.shp_to_ee ee.geometry gpd.read_file
     ee.aggregate_array ee.getInfo ee.select_col ee.Reducer.mode ee.reduce
     dw_composite_calls dw_composite_of].
  destruct (_get_dynworld_col _ _ _ _) as [[col|e] fs1 t1]; [|reflexivity].
  destruct (dynworld_class _ _ _ _ _ _ _ _ _) as [[[]|e] fs2 t2]; [|reflexivity].
  destruct prob_type as [pt|].
  - destruct (dynworld_probability _ _ _ _ _ _ _ _ _ _ _) as [r fs3 t3].
    reflexivity.
  - reflexivity.
Qed.










(** Split on how the next stage of a run ends. *)
Ltac next_stage E :=
  match goal with
  | |- context [bind ?m _ ?fs] =>
      destruct (res (m fs)) eqn:E;
      [rewrite !(bind_Ok _ _ _ E) | rewrite !(bind_Raise _ _ _ E)];
      cbv beta
  end.




(** ** Files and folders left behind *)

Lemma lookup_app_some (fs l : FS) (p : string) (k : kind) :
  lookup fs p = Some k -> lookup (fs ++ l) p = Some k.
Proof.
  unfold lookup. induction fs as [|[q kq] fs IH]; simpl; [discriminate|].
  destruct (q =? p); [trivial | exact IH].
Qed.

Lemma lookup_app_none (fs l : FS) (p : string) :
  lookup fs p = None -> lookup (fs ++ l) p = lookup l p.
Proof.
  unfold lookup. induction fs as [|[q kq] fs IH]; simpl; [reflexivity|].
  destruct (q =? p); [discriminate | exact IH].
Qed.

Lemma is_dir_add (fs : FS) (d p : string) (k : kind) :
  is_dir fs d = true -> is_dir (Fs.add fs p k) d = true.
Proof.
  unfold Fs.add. destruct (exists_ fs p); [trivial|].
  unfold is_dir. destruct (lookup fs d) as [[|]|] eqn:E; try discriminate.
  intros _. rewrite (@lookup_app_some _ _ _ _ E). reflexivity.
Qed.

Lemma is_dir_add_new (fs : FS) (d : string) :
  lookup fs d = None -> is_dir (Fs.add fs d Dir) d = true.
Proof.
  intro H. unfold Fs.add, exists_, is_dir. rewrite H.
  rewrite (@lookup_app_none _ _ _ H). unfold lookup. simpl.
  rewrite String.eqb_refl. reflexivity.
Qed.

(** A property of the file system that every turn of a loop keeps is kept
    by the loop, however it ends. *)
Lemma for_keeps {A} (I : FS -> Prop) (body : A -> M unit) :
  (forall x fs, I fs -> I (fs_after (body x fs))) ->
  forall l fs, I fs -> I (fs_after (for_ l body fs)).
Proof.
  intros Hb. induction l as [|x l IH]; intros fs Hfs; [exact Hfs|].
  cbn [for_]. destruct (res (body x fs)) eqn:E.
  - rewrite (bind_Ok _ _ _ E). cbn [fs_after]. apply IH, Hb, Hfs.
  - rewrite (bind_Raise _ _ _ E). cbn [fs_after]. apply Hb, Hfs.
Qed.

Lemma bind_glob {B} (d pattern : string) (k : list string -> M B) (fs : FS) :
  bind (glob_glob d pattern) k fs = k (glob_in fs d pattern) fs.
Proof. unfold glob_glob, get_fs, bind, ret. simpl. destruct (k _ fs); reflexivity. Qed.

Lemma mosaicRasters_run (env : Env) (mosaic_list : list string)
    (out_file extent_mode : string) (fs : FS) :
  pr.mosaicRasters env mosaic_list out_file extent_mode fs
  = if mosaic_accepts env mosaic_list
    then MkRun (Ok tt) (Fs.add fs out_file File)
           [pr_mosaicRasters mosaic_list out_file extent_mode]
    else MkRun (Raise (MosaicError mosaic_list)) fs
           [pr_mosaicRasters mosaic_list out_file extent_mode].
Proof.
  unfold pr.mosaicRasters. rewrite bind_emit.
  destruct (mosaic_accepts env mosaic_list); reflexivity.
Qed.

Lemma os_makedirs_run (p : string) (exist_ok : bool) (fs : FS) :
  os_makedirs p exist_ok fs
  = match lookup fs p with
    | None => MkRun (Ok tt) (Fs.add fs p Dir) []
    | Some Dir => if exist_ok then MkRun (Ok tt) fs [] else MkRun (Raise (FileExistsError p)) fs []
    | Some File => MkRun (Raise (FileExistsError p)) fs []
    end.
Proof.
  unfold os_makedirs, get_fs, put_fs, bind, ret, raise.
  destruct (lookup fs p) as [[|]|]; try reflexivity. destruct exist_ok; reflexivity.
Qed.

(** The tiled branch of [get_sentinel2] keeps the tile folder once it is
    there. *)
Lemma sentinel2_tiled_keeps_folder (env : Env) (ee_shp : EE) (bands : list string)
    (out_folder : string) (fs : FS) :
  res (sentinel2_tiled env ee_shp bands out_folder fs) = Ok tt ->
  is_dir (fs_after (sentinel2_tiled env ee_shp bands out_folder fs))
    (Py.os_path_join out_folder "temp_tiles") = true.
Proof.
  unfold sentinel2_tiled.
  set (d := Py.os_path_join out_folder "temp_tiles").
  assert (Hmk : forall fs', res (os_makedirs d true fs') = Ok tt ->
                  is_dir (fs_after (os_makedirs d true fs')) d = true).
  { intro fs'. rewrite os_makedirs_run. destruct (lookup fs' d) as [[|]|] eqn:E.
    - discriminate.
    - intros _. unfold is_dir. cbn [fs_after]. rewrite E. reflexivity.
    - intros _. apply is_dir_add_new, E. }
  destruct (res (os_makedirs d true fs)) as [[]|e] eqn:E.
  - rewrite (bind_Ok _ _ _ E). cbn [res fs_after]. intros _.
    unfold geemap.fishnet. rewrite bind_emit_ret. cbn [fs_after].
    apply for_keeps with (I := fun fs' => is_dir fs' d = true); [|apply Hmk, E].
    intros band fs' Hd. rewrite bind_glob, mosaicRasters_run.
    destruct (mosaic_accepts env _); cbn [fs_after]; [apply is_dir_add, Hd | exact Hd].
  - rewrite (bind_Raise _ _ _ E). discriminate.
Qed.

Lemma ensures_bind {A B} (I : FS -> Prop) (m : M A) (k : A -> M B) :
  (forall a, ensures I (k a)) -> ensures I (bind m k).
Proof.
  intros Hk fs b H. destruct (bind_Ok_inv _ _ _ H) as (a & _ & Hb & Hf).
  rewrite Hf. exact (Hk a _ _ Hb).
Qed.

Lemma exists_delete (fs : FS) (p : string) : exists_ (Fs.delete fs p) p = false.
Proof.
  unfold exists_, lookup, Fs.delete.
  induction fs as [|[q k] fs IH]; simpl; [reflexivity|].
  destruct (q =? p) eqn:E; simpl; [exact IH | rewrite E; exact IH].
Qed.

Lemma ensures_rmdir (d : string) : ensures (fun fs => exists_ fs d = false) (os_rmdir d).
Proof.
  intros fs a. unfold os_rmdir, get_fs, put_fs, raise, bind.
  destruct (lookup fs d) as [[|]|]; simpl; try discriminate.
  destruct (is_empty_dir fs d); simpl; [|discriminate].
  intros _. apply exists_delete.
Qed.

(** The land-cover class path of [get_dynworld_landcover] does remove the
    tile folder: when the tiled branch returns, the folder is gone. *)
Lemma dynworld_class_removes_tile_folder (env : Env) (dw_composite ee_shp ee_geometry : EE)
    (out_folder dst_crs : string) (out_res : Q) :
  ensures (fun fs => exists_ fs (Py.os_path_join out_folder "temp_tiles") = false)
    (dynworld_class env true dw_composite ee_shp ee_geometry out_folder dst_crs out_res).
Proof.
  unfold dynworld_class. cbv iota zeta.
  do 7 (apply ensures_bind; intros ?). apply ensures_rmdir.
Qed.

Lemma dynworld_removes_temp_tiles (env : Env)
    (ee_project_id aoi_shp_path : string) (start_date end_date : list string)
    (out_folder : string) (bands : option (list string)) (out_epsg : option Z)
    (out_res : Q) (fs : FS) :
  let run :=
    get_dynworld_landcover env ee_project_id aoi_shp_path start_date end_date
      out_folder bands out_epsg out_res None fs in
  dynworld_strategy env aoi_shp_path = Aoi.Tiled ->
  res run = Ok tt ->
  exists_ (fs_after run) (Py.os_path_join out_folder "temp_tiles") = false.
Proof.
  intro run. subst run. unfold dynworld_strategy. intro Hs.
  destruct (Aoi.on_bounds Aoi.dw_large_aoi _) eqn:E; [|discriminate].
  rewrite get_dynworld_landcover_run, E. unfold after at 1 3. cbn [res fs_after].
  intro H. apply bind_Ok_inv in H. destruct H as (col & _ & Hk & Hf).
  rewrite Hf. clear Hf. unfold after in *. cbn [res fs_after] in *.
  apply bind_Ok_inv in Hk. destruct Hk as ([] & Hc & _ & Hf).
  rewrite Hf. cbn [ret fs_after].
  exact (@dynworld_class_removes_tile_folder env _ _ _ _ _ _ _ _ Hc).
Qed.

(** C3, where the code departs from it: when the AOI is large and
    [get_sentinel2] returns, the folder [temp_tiles] is still there, as a
    directory of the output folder. *)
Theorem C3_sentinel2_leaves_temp_tiles (env : Env)
    (ee_project_id aoi_shp_path : string) (start_date end_date : list string)
    (out_folder : string) (bands : option (list string)) (out_epsg : option Z)
    (out_res : Q) (cloud_filter cloud_prob_thresh : Z) (nir_dark_thresh : Q)
    (cloud_proj_dist buffer : Z) (fs : FS) :
  let run :=
    get_sentinel2 env ee_project_id aoi_shp_path start_date end_date out_folder
      bands out_epsg out_res cloud_filter cloud_prob_thresh nir_dark_thresh
      cloud_proj_dist buffer fs in
  sentinel2_strategy env aoi_shp_path = Aoi.Tiled ->
  res run = Ok tt ->
  is_dir (fs_after run) (Py.os_path_join out_folder "temp_tiles") = true.
Proof.
  intro run. subst run. unfold sentinel2_strategy. intro Hs.
  destruct (Aoi.on_bounds Aoi.s2_large_aoi _) eqn:E; [|discriminate].
  unfold get_sentinel2, ee.Authenticate, ee.Initialize.
  rewrite !bind_emit. cbv zeta.
  rewrite (@bind_Ok _ _ (_get_aoi env aoi_shp_path) _ fs _ eq_refl).
  rewrite _get_aoi_run. cbn [res fs_after trace]. rewrite E.
  apply sentinel2_tiled_keeps_folder.
Qed.

Lemma C3_witness :
  is_dir (fs_after (Sample.sentinel2 "big.shp" (Some ["B2"]) Sample.old_tiles))
    "out/temp_tiles" = true.
Proof.
  exact (@C3_sentinel2_leaves_temp_tiles Sample.env "project" "big.shp"
           Sample.dates_from Sample.dates_to "out" (Some ["B2"]) (Some 4326%Z)
           (1 # 10000) 15 40 (15 # 100) 2 0 Sample.old_tiles eq_refl eq_refl).
Defined.

(** ** Which rasters get mosaicked *)

Ltac mosaic_step :=
  match goal with
  | |- sound _ _ (emit (pr_mosaicRasters _ _ _)) =>
      apply sound_emit;
      [cbn [negb orb is_mosaic mosaics_into]; apply String.eqb_refl | exact I]
  end.

(** C2, where the code departs from it: whatever the inputs, the only raster
    a run of [get_dynworld_landcover] ever mosaics is [landcover.tif]; the
    tiles of the probability bands are downloaded and left as they are.  On
    a large AOI with band 'water' and 'mean' probabilities the run returns
    with the four tiles of the band in the probability folder, after one
    call of the mosaic helper, for the land-cover class. *)
Theorem C2_probability_tiles_are_not_mosaicked (env : Env)
    (ee_project_id aoi_shp_path : string) (start_date end_date : list string)
    (out_folder : string) (bands : option (list string)) (out_epsg : option Z)
    (out_res : Q) (prob_type : option string) (fs : FS) :
  forallb
    (fun e => negb (is_mosaic e)
              || mosaics_into (Py.os_path_join out_folder "landcover.tif") e)
    (trace (get_dynworld_landcover env ee_project_id aoi_shp_path start_date end_date
              out_folder bands out_epsg out_res prob_type fs)) = true
  /\ (let r := Sample.dynworld "big.shp" (Some ["water"]) (Some "mean") [] in
      dynworld_strategy Sample.env "big.shp" = Aoi.Tiled
      /\ res r = Ok tt
      /\ fs_after r
         = [("out/landcover.tif", File);
            ("out/probability", Dir);
            ("out/probability/landcover_water_1.tif", File);
            ("out/probability/landcover_water_2.tif", File);
            ("out/probability/landcover_water_3.tif", File);
            ("out/probability/landcover_water_4.tif", File)]
      /\ List.filter is_mosaic (trace r)
         = [pr_mosaicRasters
              ["out/temp_tiles/landcover_1.tif"; "out/temp_tiles/landcover_2.tif";
               "out/temp_tiles/landcover_3.tif"; "out/temp_tiles/landcover_4.tif"]
              "out/landcover.tif" "trim"]).
Proof.
  split.
  - assert (H : sound
                  (fun e => negb (is_mosaic e)
                            || mosaics_into (Py.os_path_join out_folder "landcover.tif") e)
                  (fun _ => True)
                  (get_dynworld_landcover env ee_project_id aoi_shp_path start_date
                     end_date out_folder bands out_epsg out_res prob_type)).
    { unfold get_dynworld_landcover. repeat first [mosaic_step | script_step]. }
    apply H.
  - vm_compute. repeat split.
Qed.

(** The land-cover class path of [get_dynworld_landcover] does what C2 and C3
    ask: on the same input without probabilities, one raster is left and the
    tile folder is gone. *)
Example dynworld_class_tiles_are_cleaned :
  let r := Sample.dynworld "big.shp" None None [] in
  res r = Ok tt /\ fs_after r = [("out/landcover.tif", File)].
Proof. vm_compute. split; reflexivity. Qed.

(** On a fresh output folder the tiled Sentinel-2 branch hands the mosaic
    helper an empty list for every band, since nothing is downloaded. *)
Example sentinel2_mosaics_nothing :
  List.filter is_mosaic (trace (Sample.sentinel2 "big.shp" (Some ["B2"]) []))
  = [pr_mosaicRasters [] "out/sentinel2_B2.tif" "trim"].
Proof. vm_compute. reflexivity. Qed.

(** ** The download of the strategy is issued *)



(** In no run does [get_sentinel2] issue a download. *)
Lemma sentinel2_never_downloads (env : Env)
    (ee_project_id aoi_shp_path : string) (start_date end_date : list string)
    (out_folder : string) (bands : option (list string)) (out_epsg : option Z)
    (out_res : Q) (cloud_filter cloud_prob_thresh : Z) (nir_dark_thresh : Q)
    (cloud_proj_dist buffer : Z) :
  sound (fun e => negb (is_download e)) (fun _ => True)
    (get_sentinel2 env ee_project_id aoi_shp_path start_date end_date out_folder
       bands out_epsg out_res cloud_filter cloud_prob_thresh nir_dark_thresh
       cloud_proj_dist buffer).
Proof. unfold get_sentinel2. script_auto. Qed.



(** * Further facts *)

(** ** The date lists of the builders *)

Lemma nth_error_within {A} (sd ed : list A) (i : nat) :
  (List.length sd <= List.length ed)%nat -> (i < List.length sd)%nat ->
  exists s e, nth_error sd i = Some s /\ nth_error ed i = Some e.
Proof.
  intros Hlen Hi.
  destruct (nth_error sd i) as [s|] eqn:Es.
  - destruct (nth_error ed i) as [e|] eqn:Ee; [eauto|].
    apply nth_error_None in Ee. lia.
  - apply nth_error_None in Es. lia.
Qed.

(** The loop of the builders when there are at least as many end dates as
    start dates. *)
Lemma merge_loop_surplus (window : nat -> M EE) (W : string * string -> EE)
    (sd ed : list string) :
  (List.length sd <= List.length ed)%nat ->
  (forall i s e fs, nth_error sd i = Some s -> nth_error ed i = Some e ->
     res (window i fs) = Ok (W (s, e)) /\ fs_after (window i fs) = fs) ->
  forall m k acc fs, (k + m = List.length sd)%nat ->
    res (for_acc (seq k m) acc (fun acc i => c <- window i ;; ee.merge acc c) fs)
    = Ok (merge_onto acc (List.map W (skipn k (combine sd ed)))).
Proof.
  intros Hlen Hw. induction m as [|m IH]; intros k acc fs Hk.
  - simpl. rewrite skipn_all2; [reflexivity|]. rewrite length_combine. lia.
  - destruct (@nth_error_within _ sd ed k Hlen ltac:(lia)) as (s & e & Hs & He).
    destruct (Hw k s e fs Hs He) as [Hr Hf].
    change (seq k (S m)) with (k :: seq (S k) m). cbn [for_acc].
    rewrite (skipn_nth_error _ _ (nth_error_combine _ _ _ Hs He)).
    assert (Hb : res ((c <- window k ;; ee.merge acc c) fs)
                 = Ok (Apply ImageCollection_merge [acc; W (s, e)])).
    { rewrite (bind_Ok _ _ _ Hr). reflexivity. }
    rewrite (bind_Ok _ _ _ Hb). cbn [res]. apply IH. lia.
Qed.

(** The loop when the end dates run out first: the window that has no end
    date raises. *)
Lemma merge_loop_short (window : nat -> M EE) (W : string * string -> EE)
    (sd ed : list string) :
  (List.length ed < List.length sd)%nat ->
  (forall i s e fs, nth_error sd i = Some s -> nth_error ed i = Some e ->
     res (window i fs) = Ok (W (s, e)) /\ fs_after (window i fs) = fs) ->
  (forall i s fs, nth_error sd i = Some s -> nth_error ed i = None ->
     res (window i fs) = Raise IndexError) ->
  forall m k acc fs, (k + m = List.length sd)%nat -> (k <= List.length ed)%nat ->
    res (for_acc (seq k m) acc (fun acc i => c <- window i ;; ee.merge acc c) fs)
    = Raise IndexError.
Proof.
  intros Hlen Hw Hx. induction m as [|m IH]; intros k acc fs Hk Hke; [lia|].
  change (seq k (S m)) with (k :: seq (S k) m). cbn [for_acc].
  destruct (nth_error sd k) as [s|] eqn:Es; [|apply nth_error_None in Es; lia].
  destruct (nth_error ed k) as [e|] eqn:Ee.
  - destruct (Hw k s e fs Es Ee) as [Hr Hf].
    assert (Hb : res ((c <- window k ;; ee.merge acc c) fs)
                 = Ok (Apply ImageCollection_merge [acc; W (s, e)])).
    { rewrite (bind_Ok _ _ _ Hr). reflexivity. }
    rewrite (bind_Ok _ _ _ Hb). cbn [res]. apply IH; [lia|].
    assert (k < List.length ed)%nat by (apply nth_error_Some; congruence). lia.
  - assert (Hb : res ((c <- window k ;; ee.merge acc c) fs) = Raise IndexError).
    { rewrite (bind_Raise _ _ _ (Hx k s fs Es Ee)). reflexivity. }
    rewrite (bind_Raise _ _ _ Hb). reflexivity.
Qed.

Lemma dynworld_window_short (aoi : EE) (sd ed : list string) (i : nat) (fs : FS) :
  nth_error ed i = None \/ nth_error sd i = None ->
  res (dynworld_window aoi sd ed i fs) = Raise IndexError.
Proof.
  intros H. unfold dynworld_window, index, bind.
  destruct (nth_error sd i); simpl; [|reflexivity].
  destruct H as [-> | H]; [reflexivity | discriminate].
Qed.

Lemma s2_window_short (aoi : EE) (sd ed : list string) (cf : Z) (i : nat) (fs : FS) :
  nth_error ed i = None \/ nth_error sd i = None ->
  res (s2_window aoi sd ed cf i fs) = Raise IndexError.
Proof.
  intros H. unfold s2_window, index, bind.
  destruct (nth_error sd i); simpl; [|reflexivity].
  destruct H as [-> | H]; [reflexivity | discriminate].
Qed.

Lemma combine_firstn {A B} (l : list A) (l' : list B) :
  combine l (firstn (List.length l) l') = combine l l'.
Proof.
  revert l'. induction l as [|x l IH]; intros [|y l']; simpl; try reflexivity.
  rewrite IH. reflexivity.
Qed.

Lemma _get_dynworld_col_surplus (aoi : EE) (s e : string) (sd ed : list string) (fs : FS) :
  (List.length sd <= List.length ed)%nat ->
  res (_get_dynworld_col aoi (s :: sd) (e :: ed) fs)
  = Ok (merge_onto (filtered "GOOGLE/DYNAMICWORLD/V1" aoi (s, e))
          (List.map (filtered "GOOGLE/DYNAMICWORLD/V1" aoi) (combine sd ed))).
Proof.
  intro Hlen. unfold _get_dynworld_col.
  destruct (@dynworld_window_run aoi (s :: sd) (e :: ed) 0 s e fs eq_refl eq_refl)
    as [Hr Hf].
  rewrite (bind_Ok _ _ _ Hr), Hf. cbn [res].
  replace (range 1 (List.length (s :: sd))) with (seq 1 (List.length sd))
    by (unfold range; simpl; f_equal; lia).
  apply (@merge_loop_surplus (dynworld_window aoi (s :: sd) (e :: ed))
           (filtered "GOOGLE/DYNAMICWORLD/V1" aoi) (s :: sd) (e :: ed)).
  - simpl. lia.
  - intros. apply dynworld_window_run; assumption.
  - reflexivity.
Qed.

Lemma _get_s2_sr_cld_col_surplus (aoi : EE) (s e : string) (sd ed : list string)
    (cf : Z) (fs : FS) :
  (List.length sd <= List.length ed)%nat ->
  res (_get_s2_sr_cld_col aoi (s :: sd) (e :: ed) cf fs)
  = Ok (merge_onto (s2_joined aoi cf (s, e)) (List.map (s2_joined aoi cf) (combine sd ed))).
Proof.
  intro Hlen. unfold _get_s2_sr_cld_col.
  destruct (@s2_window_run aoi (s :: sd) (e :: ed) cf 0 s e fs eq_refl eq_refl)
    as [Hr Hf].
  rewrite (bind_Ok _ _ _ Hr), Hf. cbn [res].
  destruct (negb (List.length (s :: sd) =? 1)%nat) eqn:E.
  - replace (range 1 (List.length (s :: sd))) with (seq 1 (List.length sd))
      by (unfold range; simpl; f_equal; lia).
    apply (@merge_loop_surplus (s2_window aoi (s :: sd) (e :: ed) cf)
             (s2_joined aoi cf) (s :: sd) (e :: ed)).
    + simpl. lia.
    + intros. apply s2_window_run; assumption.
    + reflexivity.
  - apply negb_false_iff, Nat.eqb_eq in E. simpl in E.
    destruct sd; [|discriminate]. reflexivity.
Qed.

(** X1: end dates beyond the number of start dates are never read.  With a
    non-empty list of start dates and at least as many end dates, both
    builders return the merge of the windows (start, end) paired by position,
    the same collection as with the surplus end dates cut off. *)
Theorem X1_surplus_end_dates_are_ignored
    (aoi : EE) (start_date end_date : list string) (cloud_filter : Z) (fs : FS) :
  start_date <> [] ->
  (List.length start_date <= List.length end_date)%nat ->
  let cut := firstn (List.length start_date) end_date in
  (exists c,
      merged (List.map (filtered "GOOGLE/DYNAMICWORLD/V1" aoi)
                (combine start_date end_date)) = Some c
      /\ res (_get_dynworld_col aoi start_date end_date fs) = Ok c
      /\ res (_get_dynworld_col aoi start_date cut fs) = Ok c)
  /\ (exists c,
      merged (List.map (s2_joined aoi cloud_filter)
                (combine start_date end_date)) = Some c
      /\ res (_get_s2_sr_cld_col aoi start_date end_date cloud_filter fs) = Ok c
      /\ res (_get_s2_sr_cld_col aoi start_date cut cloud_filter fs) = Ok c).
Proof.
  intros Hne Hlen cut.
  assert (Hcut : combine start_date cut = combine start_date end_date)
    by apply combine_firstn.
  assert (Hlc : List.length cut = List.length start_date)
    by (subst cut; rewrite length_firstn; lia).
  destruct start_date as [|s sd]; [congruence|].
  destruct end_date as [|e ed]; [simpl in Hlen; lia|].
  simpl in Hlen. simpl combine. cbn [List.map merged].
  assert (Hc : cut = e :: firstn (List.length sd) ed) by reflexivity.
  assert (Hl : List.length (firstn (List.length sd) ed) = List.length sd)
    by (rewrite length_firstn; lia).
  split; eexists; (split; [reflexivity|]); split.
  - apply _get_dynworld_col_surplus. lia.
  - rewrite Hc, _get_dynworld_col_surplus by lia. rewrite combine_firstn. reflexivity.
  - apply _get_s2_sr_cld_col_surplus. lia.
  - rewrite Hc, _get_s2_sr_cld_col_surplus by lia. rewrite combine_firstn. reflexivity.
Qed.

Lemma X1_witness :
  res (_get_dynworld_col Sample.aoi ["2023-06-01"] Sample.dates_to [])
  = Ok (filtered "GOOGLE/DYNAMICWORLD/V1" Sample.aoi ("2023-06-01", "2023-09-01")).
Proof.
  destruct (@X1_surplus_end_dates_are_ignored Sample.aoi ["2023-06-01"] Sample.dates_to
              15 [] ltac:(discriminate) ltac:(simpl; lia))
    as [(c & Hc & Hr & _) _].
  injection Hc as <-. exact Hr.
Defined.

Lemma _get_dynworld_col_short (aoi : EE) (start_date end_date : list string) (fs : FS) :
  start_date = [] \/ (List.length end_date < List.length start_date)%nat ->
  res (_get_dynworld_col aoi start_date end_date fs) = Raise IndexError.
Proof.
  intros [-> | Hlen]; [reflexivity|].
  destruct start_date as [|s sd]; [simpl in Hlen; lia|].
  destruct end_date as [|e ed]; [reflexivity|].
  simpl in Hlen. unfold _get_dynworld_col.
  destruct (@dynworld_window_run aoi (s :: sd) (e :: ed) 0 s e fs eq_refl eq_refl)
    as [Hr Hf].
  rewrite (bind_Ok _ _ _ Hr). cbn [res].
  replace (range 1 (List.length (s :: sd))) with (seq 1 (List.length sd))
    by (unfold range; simpl; f_equal; lia).
  apply (@merge_loop_short (dynworld_window aoi (s :: sd) (e :: ed))
           (filtered "GOOGLE/DYNAMICWORLD/V1" aoi) (s :: sd) (e :: ed)).
  - simpl. lia.
  - intros. apply dynworld_window_run; assumption.
  - intros. apply dynworld_window_short. left. assumption.
  - reflexivity.
  - simpl. lia.
Qed.

Lemma _get_s2_sr_cld_col_short (aoi : EE) (start_date end_date : list string)
    (cloud_filter : Z) (fs : FS) :
  start_date = [] \/ (List.length end_date < List.length start_date)%nat ->
  res (_get_s2_sr_cld_col aoi start_date end_date cloud_filter fs) = Raise IndexError.
Proof.
  intros [-> | Hlen]; [reflexivity|].
  destruct start_date as [|s sd]; [simpl in Hlen; lia|].
  destruct end_date as [|e ed]; [reflexivity|].
  simpl in Hlen. unfold _get_s2_sr_cld_col.
  destruct (@s2_window_run aoi (s :: sd) (e :: ed) cloud_filter 0 s e fs eq_refl eq_refl)
    as [Hr Hf].
  rewrite (bind_Ok _ _ _ Hr). cbn [res].
  destruct (negb (List.length (s :: sd) =? 1)%nat) eqn:E.
  - replace (range 1 (List.length (s :: sd))) with (seq 1 (List.length sd))
      by (unfold range; simpl; f_equal; lia).
    apply (@merge_loop_short (s2_window aoi (s :: sd) (e :: ed) cloud_filter)
             (s2_joined aoi cloud_filter) (s :: sd) (e :: ed)).
    + simpl. lia.
    + intros. apply s2_window_run; assumption.
    + intros. apply s2_window_short. left. assumption.
    + reflexivity.
    + simpl. lia.
  - apply negb_false_iff, Nat.eqb_eq in E. simpl in E. lia.
Qed.

(** X2: with no start date, or with fewer end dates than start dates, both
    builders raise IndexError. *)
Theorem X2_missing_dates_raise_IndexError
    (aoi : EE) (start_date end_date : list string) (cloud_filter : Z) (fs : FS) :
  start_date = [] \/ (List.length end_date < List.length start_date)%nat ->
  res (_get_dynworld_col aoi start_date end_date fs) = Raise IndexError
  /\ res (_get_s2_sr_cld_col aoi start_date end_date cloud_filter fs) = Raise IndexError.
Proof.
  intro H. split.
  - apply _get_dynworld_col_short, H.
  - apply _get_s2_sr_cld_col_short, H.
Qed.

Lemma X2_witness :
  res (_get_dynworld_col Sample.aoi Sample.dates_from ["2023-09-01"] []) = Raise IndexError.
Proof.
  apply (@X2_missing_dates_raise_IndexError Sample.aoi Sample.dates_from ["2023-09-01"]
           15 []).
  right. simpl. lia.
Defined.

(** ** What a piece of the script does to the file system *)

Lemma kept_refl (fs : FS) : kept fs fs.
Proof. intros p k H. exact H. Qed.

Lemma kept_trans (fs1 fs2 fs3 : FS) : kept fs1 fs2 -> kept fs2 fs3 -> kept fs1 fs3.
Proof. intros H1 H2 p k H. apply H2, H1, H. Qed.

Lemma kept_add (fs : FS) (p : string) (k : kind) : kept fs (Fs.add fs p k).
Proof.
  intros q kq H. unfold Fs.add. destruct (exists_ fs p); [exact H|].
  apply lookup_app_some, H.
Qed.




Lemma lookup_delete_other (fs : FS) (q p : string) :
  p <> q -> lookup (Fs.delete fs q) p = lookup fs p.
Proof.
  intro Hne. unfold lookup, Fs.delete.
  induction fs as [|[r k] fs IH]; simpl; [reflexivity|].
  destruct (r =? q) eqn:Eq; simpl.
  - apply String.eqb_eq in Eq. subst r.
    destruct (q =? p) eqn:Ep; [apply String.eqb_eq in Ep; congruence | exact IH].
  - destruct (r =? p); [reflexivity | exact IH].
Qed.


Section ChangesRules.

Variable R : FS -> FS -> Prop.
Hypothesis R_refl : forall fs, R fs fs.
Hypothesis R_trans : forall fs1 fs2 fs3, R fs1 fs2 -> R fs2 fs3 -> R fs1 fs3.

Lemma changes_ret {A} (Q : A -> Prop) (a : A) : Q a -> changes R Q (ret a).
Proof. intros H fs. split; [apply R_refl|]. simpl. intros b [= <-]. exact H. Qed.

Lemma changes_raise {A} (Q : A -> Prop) (e : exn) : changes R Q (raise e).
Proof. intros fs. split; [apply R_refl|]. simpl. discriminate. Qed.

Lemma changes_emit (Q : unit -> Prop) (e : Event) : Q tt -> changes R Q (emit e).
Proof. intros H fs. split; [apply R_refl|]. simpl. intros [] _. exact H. Qed.

Lemma changes_bind {A B} (Q : A -> Prop) (Q' : B -> Prop) (m : M A) (k : A -> M B) :
  changes R Q m -> (forall a, Q a -> changes R Q' (k a)) -> changes R Q' (bind m k).
Proof.
  intros Hm Hk fs. destruct (Hm fs) as [Hr Hq].
  destruct (res (m fs)) as [a|e] eqn:E.
  - rewrite (bind_Ok _ _ _ E). simpl.
    destruct (Hk a (Hq a eq_refl) (fs_after (m fs))) as [Hr' Hq'].
    split; [exact (R_trans Hr Hr') | exact Hq'].
  - rewrite (bind_Raise _ _ _ E). simpl. split; [exact Hr | discriminate].
Qed.

Lemma changes_call (Q : EE -> Prop) (f : ee_fn) (args : list EE) :
  Q (Apply f args) -> changes R Q (call f args).
Proof.
  intros Hq. unfold call. apply changes_bind with (Q := fun _ => True).
  - apply changes_emit. exact I.
  - intros _ _. apply changes_ret, Hq.
Qed.

Lemma changes_index {A} (l : list A) (i : nat) : changes R (fun _ => True) (index l i).
Proof.
  unfold index. destruct (nth_error l i); [apply changes_ret; exact I | apply changes_raise].
Qed.

Lemma changes_for_ {A} (l : list A) (body : A -> M unit) :
  (forall x, In x l -> changes R (fun _ => True) (body x)) ->
  changes R (fun _ => True) (for_ l body).
Proof.
  induction l as [|x l IH]; intros Hb; simpl.
  - apply changes_ret. exact I.
  - apply changes_bind with (Q := fun _ => True).
    + apply Hb. left. reflexivity.
    + intros _ _. apply IH. intros y Hy. apply Hb. right. exact Hy.
Qed.

Lemma changes_for_acc {A S} (l : list A) (acc : S) (body : S -> A -> M S) :
  (forall s x, changes R (fun _ => True) (body s x)) ->
  changes R (fun _ => True) (for_acc l acc body).
Proof.
  intros Hb. revert acc. induction l as [|x l IH]; intros acc; simpl.
  - apply changes_ret. exact I.
  - apply changes_bind with (Q := fun _ => True); [apply Hb | intros s _; apply IH].
Qed.

Lemma changes_os_path_exists (p : string) : changes R (fun _ => True) (os_path_exists p).
Proof. intros fs. split; [apply R_refl | trivial]. Qed.

Lemma changes_glob (Q : list string -> Prop) (d pattern : string) :
  (forall fs, Q (glob_in fs d pattern)) -> changes R Q (glob_glob d pattern).
Proof.
  intros H fs. split; [apply R_refl|]. simpl. intros a [= <-]. apply H.
Qed.

Lemma changes_write_file (p : string) :
  (forall fs, R fs (Fs.add fs p File)) -> changes R (fun _ => True) (write_file p).
Proof. intros H fs. split; [apply H | trivial]. Qed.

Lemma changes_os_makedirs (p : string) (exist_ok : bool) :
  (forall fs, R fs (Fs.add fs p Dir)) -> changes R (fun _ => True) (os_makedirs p exist_ok).
Proof.
  intros H fs. rewrite os_makedirs_run. split; [|trivial].
  destruct (lookup fs p) as [[|]|]; [| destruct exist_ok |]; simpl;
    first [apply R_refl | apply H].
Qed.

Lemma changes_os_remove (p : string) :
  (forall fs, R fs (Fs.delete fs p)) -> changes R (fun _ => True) (os_remove p).
Proof.
  intros H fs. split; [|trivial].
  unfold os_remove, get_fs, put_fs, raise, bind.
  destruct (lookup fs p) as [[|]|]; simpl; first [apply R_refl | apply H].
Qed.

Lemma changes_os_rmdir (p : string) :
  (forall fs, R fs (Fs.delete fs p)) -> changes R (fun _ => True) (os_rmdir p).
Proof.
  intros H fs. split; [|trivial].
  unfold os_rmdir, get_fs, put_fs, raise, bind.
  destruct (lookup fs p) as [[|]|]; simpl; try apply R_refl.
  destruct (is_empty_dir fs p); simpl; first [apply R_refl | apply H].
Qed.

End ChangesRules.

Create HintDb pieces discriminated.

#[local] Hint Unfold
  ee.Authenticate ee.Initialize ee.getInfo ee.ImageCollection ee.ImageCollection_of
  ee.filterBounds ee.filterDate ee.filter ee.merge ee.aggregate_array ee.select_col
  ee.reduce ee.geometry ee.map ee.get ee.Number ee.subtract ee.Image ee.select ee.gt
  ee.lt ee.neq ee.rename ee.addBands ee.multiply ee.add ee.Not ee.mask ee.updateMask
  ee.projection ee.reproject ee.directionalDistanceTransform ee.focalMin ee.focalMax
  ee.Reducer.mode ee.Reducer.mean ee.Reducer.median ee.Filter.lte ee.Filter.equals
  ee.Join.saveFirst ee.Join.apply
  geemap.shp_to_ee geemap.fishnet geemap.download_ee_image_tiles
  geemap.download_ee_image gpd.read_file pr.mosaicRasters unbound
  _get_dynworld_col dynworld_window dynworld_class dynworld_probability
  _get_s2_sr_cld_col s2_window sentinel2_tiled sentinel2_single _get_aoi
  : pieces.

(** One step of a proof on the file system: follow the shape of the code;
    what is left are the writes and removals, to be justified for the
    relation at hand. *)
Ltac changes_step :=
  match goal with
  | |- changes _ _ (bind (raise _) _) =>
      eapply changes_bind with (Q := fun _ => False); try assumption;
      [apply changes_raise; assumption | intros ? []]
  | |- changes _ _ (bind (unbound _) _) =>
      eapply changes_bind with (Q := fun _ => False); try assumption;
      [apply changes_raise; assumption | intros ? []]
  | |- changes _ _ (bind _ _) =>
      eapply changes_bind with (Q := fun _ => True); try assumption; [|intros ? _]
  | |- changes _ _ (ret _) => apply changes_ret; solve [assumption | exact I]
  | |- changes _ _ (raise _) => apply changes_raise; assumption
  | |- changes _ _ (emit _) => apply changes_emit; solve [assumption | exact I]
  | |- changes _ _ (call _ _) => apply changes_call; solve [assumption | exact I]
  | |- changes _ _ (index _ _) => apply changes_index; assumption
  | |- changes _ _ (os_path_exists _) => apply changes_os_path_exists; assumption
  | |- changes _ _ (glob_glob _ _) =>
      apply changes_glob; solve [assumption | intros; exact I]
  | |- changes _ _ (for_ _ _) => apply changes_for_; try assumption; intros ? _
  | |- changes _ _ (for_acc _ _ _) => apply changes_for_acc; try assumption; intros ? ?
  | |- changes _ _ (let _ := _ in _) => cbv zeta
  | |- changes _ _ (if true then _ else _) => cbv iota
  | |- changes _ _ (if false then _ else _) => cbv iota
  | |- changes _ _ (if ?b then _ else _) => destruct b
  | |- changes _ _ (match ?x with _ => _ end) => destruct x
  | |- changes _ _ _ => progress autounfold with pieces
  end.

(** The builders leave the file system alone, however they end. *)
Lemma _get_dynworld_col_untouched (aoi : EE) (start_date end_date : list string) (fs : FS) :
  fs_after (_get_dynworld_col aoi start_date end_date fs) = fs.
Proof.
  assert (Hrefl : forall f : FS, f = f) by reflexivity.
  assert (Htrans : forall f1 f2 f3 : FS, f1 = f2 -> f2 = f3 -> f1 = f3)
    by (intros; congruence).
  assert (H : changes eq (fun _ => True) (_get_dynworld_col aoi start_date end_date))
    by (repeat changes_step).
  symmetry. apply H.
Qed.

Lemma _get_s2_sr_cld_col_untouched (aoi : EE) (start_date end_date : list string)
    (cloud_filter : Z) (fs : FS) :
  fs_after (_get_s2_sr_cld_col aoi start_date end_date cloud_filter fs) = fs.
Proof.
  assert (Hrefl : forall f : FS, f = f) by reflexivity.
  assert (Htrans : forall f1 f2 f3 : FS, f1 = f2 -> f2 = f3 -> f1 = f3)
    by (intros; congruence).
  assert (H : changes eq (fun _ => True)
                (_get_s2_sr_cld_col aoi start_date end_date cloud_filter))
    by (repeat changes_step).
  symmetry. apply H.
Qed.

(** The writes of a piece of the script, justified by [tac] for the relation
    at hand. *)
Ltac fs_step tac :=
  match goal with
  | |- changes _ _ (write_file _) => apply changes_write_file; try assumption; tac
  | |- changes _ _ (os_makedirs _ _) => apply changes_os_makedirs; try assumption; tac
  | |- changes _ _ (os_remove _) => apply changes_os_remove; try assumption; tac
  | |- changes _ _ (os_rmdir _) => apply changes_os_rmdir; try assumption; tac
  end.

Ltac changes_with tac := repeat first [fs_step tac | changes_step].

(** ** Bad date lists *)

Lemma _get_dynworld_col_moves_no_data (aoi : EE) (start_date end_date : list string) :
  sound (fun e => negb (moves_data e)) (fun _ => True)
    (_get_dynworld_col aoi start_date end_date).
Proof. repeat sound_step. Qed.

(** X3: when the date lists are unusable (no start date, or fewer end dates
    than start dates), [get_dynworld_landcover] ends in IndexError before it
    asks the server for anything or writes anything: the file system is as
    it was, and no [getInfo], fishnet, download or mosaic call was made. *)
Theorem X3_bad_dates_fail_before_any_transfer (env : Env)
    (ee_project_id aoi_shp_path : string) (start_date end_date : list string)
    (out_folder : string) (bands : option (list string)) (out_epsg : option Z)
    (out_res : Q) (prob_type : option string) (fs : FS) :
  start_date = [] \/ (List.length end_date < List.length start_date)%nat ->
  let r := get_dynworld_landcover env ee_project_id aoi_shp_path start_date end_date
             out_folder bands out_epsg out_res prob_type fs in
  res r = Raise IndexError
  /\ fs_after r = fs
  /\ forallb (fun e => negb (moves_data e)) (trace r) = true.
Proof.
  intros H r. subst r. rewrite get_dynworld_landcover_run.
  rewrite (bind_Raise _ _ _ (@_get_dynworld_col_short _ _ _ fs H)).
  unfold after. cbn [res fs_after trace]. repeat split.
  - apply _get_dynworld_col_untouched.
  - rewrite forallb_app. apply andb_true_iff. split; [reflexivity|].
    apply _get_dynworld_col_moves_no_data.
Qed.

Lemma X3_witness :
  fs_after (get_dynworld_landcover Sample.env "project" "big.shp" Sample.dates_from
              ["2023-09-01"] "out" None (Some 4326%Z) 10 (Some "mean") Sample.old_tiles)
  = Sample.old_tiles.
Proof.
  apply (@X3_bad_dates_fail_before_any_transfer Sample.env "project" "big.shp"
           Sample.dates_from ["2023-09-01"] "out" None (Some 4326%Z) 10 (Some "mean")
           Sample.old_tiles).
  right. simpl. lia.
Defined.

(** ** What [get_sentinel2] does not look at *)

(** X4: a run of [get_sentinel2] does not depend on the dates, on the
    output resolution and EPSG code, or on any of the cloud and shadow
    parameters: two calls that differ only in these make the same calls,
    end alike and leave the same file system. *)
Theorem X4_sentinel2_ignores_dates_and_cloud_settings (env : Env)
    (ee_project_id aoi_shp_path out_folder : string) (bands : option (list string))
    (start_date end_date start_date' end_date' : list string)
    (out_epsg out_epsg' : option Z) (out_res out_res' : Q)
    (cloud_filter cloud_prob_thresh cloud_filter' cloud_prob_thresh' : Z)
    (nir_dark_thresh nir_dark_thresh' : Q)
    (cloud_proj_dist buffer cloud_proj_dist' buffer' : Z) (fs : FS) :
  get_sentinel2 env ee_project_id aoi_shp_path start_date end_date out_folder bands
    out_epsg out_res cloud_filter cloud_prob_thresh nir_dark_thresh cloud_proj_dist
    buffer fs
  = get_sentinel2 env ee_project_id aoi_shp_path start_date' end_date' out_folder bands
      out_epsg' out_res' cloud_filter' cloud_prob_thresh' nir_dark_thresh'
      cloud_proj_dist' buffer' fs.
Proof.
  unfold get_sentinel2, ee.Authenticate, ee.Initialize.
  rewrite !bind_emit. cbv zeta.
  rewrite !(@bind_Ok _ _ (_get_aoi env aoi_shp_path) _ fs _ eq_refl).
  rewrite _get_aoi_run. cbn [res fs_after trace].
  destruct (Aoi.on_bounds Aoi.s2_large_aoi _); [reflexivity|].
  destruct bands as [[|b bs]|]; reflexivity.
Qed.

(** ** One mosaic per band *)


Lemma sentinel2_band_run (env : Env) (d out_folder band : string) (fs : FS) :
  let mosaic_list := glob_in fs d ("sentinel2_" ^^ band ^^ "_*.tif") in
  let mosaic_out := Py.os_path_join out_folder ("sentinel2_" ^^ band ^^ ".tif") in
  (mosaic_list <- glob_glob d ("sentinel2_" ^^ band ^^ "_*.tif") ;;
   pr.mosaicRasters env mosaic_list mosaic_out "trim") fs
  = if mosaic_accepts env mosaic_list
    then MkRun (Ok tt) (Fs.add fs mosaic_out File)
           [pr_mosaicRasters mosaic_list mosaic_out "trim"]
    else MkRun (Raise (MosaicError mosaic_list)) fs
           [pr_mosaicRasters mosaic_list mosaic_out "trim"].
Proof. intros. rewrite bind_glob. apply mosaicRasters_run. Qed.

Lemma sentinel2_tiled_outputs (env : Env) (ee_shp : EE) (bands : list string)
    (out_folder : string) (fs : FS) :
  res (sentinel2_tiled env ee_shp bands out_folder fs) = Ok tt ->
  mosaic_outputs (trace (sentinel2_tiled env ee_shp bands out_folder fs))
  = List.map (fun band => Py.os_path_join out_folder ("sentinel2_" ^^ band ^^ ".tif")) bands.
Proof.
  unfold sentinel2_tiled.
  set (d := Py.os_path_join out_folder "temp_tiles").
  destruct (res (os_makedirs d true fs)) as [[]|e] eqn:E.
  - rewrite (bind_Ok _ _ _ E). cbn [res trace].
    assert (Ht : trace (os_makedirs d true fs) = []).
    { rewrite os_makedirs_run. destruct (lookup fs d) as [[|]|]; reflexivity. }
    rewrite Ht. cbn [app]. unfold geemap.fishnet. rewrite bind_emit_ret.
    cbn [res trace]. generalize (fs_after (os_makedirs d true fs)). clear E Ht fs.
    induction bands as [|band bands IH]; intros fs; [reflexivity|].
    cbn [for_ List.map].
    pose proof (sentinel2_band_run env d out_folder band fs) as Hb. cbv zeta in Hb.
    destruct (mosaic_accepts env _).
    + assert (Hr : res ((mosaic_list <- glob_glob d ("sentinel2_" ^^ band ^^ "_*.tif") ;;
                         pr.mosaicRasters env mosaic_list
                           (Py.os_path_join out_folder ("sentinel2_" ^^ band ^^ ".tif"))
                           "trim") fs) = Ok tt) by (rewrite Hb; reflexivity).
      rewrite (bind_Ok _ _ _ Hr). rewrite Hb. cbn [res trace fs_after app].
      intro H. apply IH in H. cbn [mosaic_outputs flat_map app] in *.
      f_equal. exact H.
    + assert (Hr : res ((mosaic_list <- glob_glob d ("sentinel2_" ^^ band ^^ "_*.tif") ;;
                         pr.mosaicRasters env mosaic_list
                           (Py.os_path_join out_folder ("sentinel2_" ^^ band ^^ ".tif"))
                           "trim") fs)
                      = Raise (MosaicError
                                 (glob_in fs d ("sentinel2_" ^^ band ^^ "_*.tif"))))
        by (rewrite Hb; reflexivity).
      rewrite (bind_Raise _ _ _ Hr). discriminate.
  - rewrite (bind_Raise _ _ _ E). discriminate.
Qed.

(** X5: when [get_sentinel2] returns on a large AOI, the mosaic helper has
    been called once for each requested band, in the order of the list, each
    time for the raster [sentinel2_<band>.tif] of the output folder. *)
Theorem X5_sentinel2_mosaics_once_per_band (env : Env)
    (ee_project_id aoi_shp_path : string) (start_date end_date : list string)
    (out_folder : string) (bands : option (list string)) (out_epsg : option Z)
    (out_res : Q) (cloud_filter cloud_prob_thresh : Z) (nir_dark_thresh : Q)
    (cloud_proj_dist buffer : Z) (fs : FS) :
  let run :=
    get_sentinel2 env ee_project_id aoi_shp_path start_date end_date out_folder
      bands out_epsg out_res cloud_filter cloud_prob_thresh nir_dark_thresh
      cloud_proj_dist buffer fs in
  let bands' := match bands with None => sentinel2_bands | Some bands => bands end in
  sentinel2_strategy env aoi_shp_path = Aoi.Tiled ->
  res run = Ok tt ->
  mosaic_outputs (trace run)
  = List.map (fun band => Py.os_path_join out_folder ("sentinel2_" ^^ band ^^ ".tif"))
      bands'.
Proof.
  intros run bands'. subst run. unfold sentinel2_strategy. intro Hs.
  destruct (Aoi.on_bounds Aoi.s2_large_aoi _) eqn:E; [|discriminate].
  unfold get_sentinel2, ee.Authenticate, ee.Initialize.
  rewrite !bind_emit. cbv zeta.
  rewrite (@bind_Ok _ _ (_get_aoi env aoi_shp_path) _ fs _ eq_refl).
  rewrite _get_aoi_run. cbn [res fs_after trace]. rewrite E.
  intro H. apply sentinel2_tiled_outputs in H. fold bands' in H.
  rewrite <- H. reflexivity.
Qed.

Lemma X5_witness :
  mosaic_outputs (trace (Sample.sentinel2 "big.shp" (Some ["B2"]) Sample.old_tiles))
  = ["out/sentinel2_B2.tif"].
Proof.
  exact (@X5_sentinel2_mosaics_once_per_band Sample.env "project" "big.shp"
           Sample.dates_from Sample.dates_to "out" (Some ["B2"]) (Some 4326%Z)
           (1 # 10000) 15 40 (15 # 100) 2 0 Sample.old_tiles eq_refl eq_refl).
Defined.

(** ** Nothing is deleted outside the tile folder *)

Ltac kept_rules :=
  pose proof kept_refl as Hrefl; pose proof kept_trans as Htrans.

(** X6: [get_sentinel2] never deletes or replaces anything: whatever the
    inputs and however the run ends, every path that existed before the call
    exists after it, as the same kind of entry. *)
Theorem X6_sentinel2_deletes_nothing (env : Env)
    (ee_project_id aoi_shp_path : string) (start_date end_date : list string)
    (out_folder : string) (bands : option (list string)) (out_epsg : option Z)
    (out_res : Q) (cloud_filter cloud_prob_thresh : Z) (nir_dark_thresh : Q)
    (cloud_proj_dist buffer : Z) (fs : FS) (p : string) (k : kind) :
  lookup fs p = Some k ->
  lookup (fs_after (get_sentinel2 env ee_project_id aoi_shp_path start_date end_date
                      out_folder bands out_epsg out_res cloud_filter cloud_prob_thresh
                      nir_dark_thresh cloud_proj_dist buffer fs)) p = Some k.
Proof.
  kept_rules.
  assert (H : changes kept (fun _ => True)
                (get_sentinel2 env ee_project_id aoi_shp_path start_date end_date
                   out_folder bands out_epsg out_res cloud_filter cloud_prob_thresh
                   nir_dark_thresh cloud_proj_dist buffer)).
  { unfold get_sentinel2. changes_with ltac:(intros; apply kept_add). }
  apply H.
Qed.

Lemma X6_witness :
  lookup (fs_after (Sample.sentinel2 "big.shp" (Some ["B2"]) Sample.old_tiles))
    "out/temp_tiles/sentinel2_B2_1.tif" = Some File.
Proof.
  exact (@X6_sentinel2_deletes_nothing Sample.env "project" "big.shp"
           Sample.dates_from Sample.dates_to "out" (Some ["B2"]) (Some 4326%Z)
           (1 # 10000) 15 40 (15 # 100) 2 0 Sample.old_tiles
           "out/temp_tiles/sentinel2_B2_1.tif" File eq_refl).
Defined.

(** X7: on an AOI that is not large, [get_dynworld_landcover] never deletes
    or replaces anything either, with or without probabilities and however
    the run ends. *)
Theorem X7_dynworld_single_shot_deletes_nothing (env : Env)
    (ee_project_id aoi_shp_path : string) (start_date end_date : list string)
    (out_folder : string) (bands : option (list string)) (out_epsg : option Z)
    (out_res : Q) (prob_type : option string) (fs : FS) (p : string) (k : kind) :
  dynworld_strategy env aoi_shp_path = Aoi.SingleShot ->
  lookup fs p = Some k ->
  lookup (fs_after (get_dynworld_landcover env ee_project_id aoi_shp_path start_date
                      end_date out_folder bands out_epsg out_res prob_type fs)) p
  = Some k.
Proof.
  unfold dynworld_strategy. intro Hs.
  destruct (Aoi.on_bounds Aoi.dw_large_aoi _) eqn:E; [discriminate|].
  rewrite get_dynworld_landcover_run, E. unfold after at 1. cbn [fs_after].
  kept_rules.
  assert (H : forall col,
             changes kept (fun _ => True)
               (bind (dynworld_class env false (dw_composite_of col)
                        (Apply FeatureCollection_geometry [Shp aoi_shp_path])
                        (Apply FeatureCollection_geometry [Shp aoi_shp_path])
                        out_folder ("EPSG:" ^^ Py.str_of_opt_int out_epsg) out_res)
                  (fun _ =>
                     match prob_type with
                     | Some prob_type =>
                         dynworld_probability env prob_type false col
                           (Apply FeatureCollection_geometry [Shp aoi_shp_path])
                           (Apply FeatureCollection_geometry [Shp aoi_shp_path])
                           match bands with
                           | Some bands => bands
                           | None => dynworld_bands
                           end out_folder ("EPSG:" ^^ Py.str_of_opt_int out_epsg) out_res
                     | None => ret tt
                     end))).
  { intro col. changes_with ltac:(intros; apply kept_add). }
  next_stage E1.
  - unfold after. cbn [fs_after]. rewrite _get_dynworld_col_untouched.
    apply (H a fs).
  - cbn [fs_after]. rewrite _get_dynworld_col_untouched. trivial.
Qed.

Lemma X7_witness :
  lookup (fs_after (Sample.dynworld "unit.shp" None (Some "mean") Sample.old_tiles))
    "out/temp_tiles/sentinel2_B2_1.tif" = Some File.
Proof.
  exact (@X7_dynworld_single_shot_deletes_nothing Sample.env "project" "unit.shp"
           Sample.dates_from Sample.dates_to "out" None (Some 4326%Z) 10 (Some "mean")
           Sample.old_tiles "out/temp_tiles/sentinel2_B2_1.tif" File eq_refl eq_refl).
Defined.

(** ** Strings and paths *)

Lemma append_assoc (a b c : string) : (a ^^ b) ^^ c = a ^^ b ^^ c.
Proof. induction a as [|x a IH]; simpl; [reflexivity | rewrite IH; reflexivity]. Qed.

Lemma append_nonempty (a b : string) : b <> "" -> a ^^ b <> "".
Proof. destruct a; simpl; [trivial | discriminate]. Qed.

Lemma append_same (a n : string) : a ^^ n = a -> n = "".
Proof.
  induction a as [|x a IH]; simpl; [trivial|]. intros [= H]. apply IH, H.
Qed.

Lemma prefix_nil (s : string) : String.prefix "" s = true.
Proof. destruct s; reflexivity. Qed.

Lemma prefix_append (a b : string) : String.prefix a (a ^^ b) = true.
Proof.
  induction a as [|x a IH]; simpl; [apply prefix_nil|].
  destruct (ascii_dec x x); [exact IH | congruence].
Qed.

Lemma prefix_cancel (a x y : string) : String.prefix (a ^^ x) (a ^^ y) = String.prefix x y.
Proof.
  induction a as [|c a IH]; simpl; [reflexivity|].
  destruct (ascii_dec c c); [exact IH | congruence].
Qed.

Lemma prefix_app_l (d s p : string) :
  String.prefix (d ^^ s) p = true -> String.prefix d p = true.
Proof.
  revert p. induction d as [|c d IH]; intros p; simpl; [intros _; apply prefix_nil|].
  destruct p as [|c' p]; [discriminate|]. simpl.
  destruct (ascii_dec c c'); [apply IH | discriminate].
Qed.

Lemma prefix_refl (a : string) : String.prefix a a = true.
Proof.
  induction a as [|c a IH]; simpl; [reflexivity|].
  destruct (ascii_dec c c); [exact IH | congruence].
Qed.

Lemma substring_all (s : string) : substring 0 (String.length s) s = s.
Proof. induction s as [|c s IH]; simpl; [reflexivity | rewrite IH; reflexivity]. Qed.

Lemma prefix_split (a p : string) :
  String.prefix a p = true ->
  p = a ^^ substring (String.length a) (String.length p - String.length a) p.
Proof.
  revert p. induction a as [|c a IH]; intros p H.
  - simpl. rewrite Nat.sub_0_r, substring_all. reflexivity.
  - destruct p as [|c' p]; [discriminate|]. simpl in H.
    destruct (ascii_dec c c') as [<-|]; [|discriminate].
    simpl. rewrite <- (IH p H). reflexivity.
Qed.

Lemma no_slash_startswith (n : string) :
  existsb (Ascii.eqb "/") (Py.chars n) = false -> Py.startswith n "/" = false.
Proof.
  intro H. unfold Py.startswith. destruct n as [|c n]; [reflexivity|].
  change (Py.chars (String c n)) with (c :: Py.chars n) in H.
  cbn [existsb] in H. apply orb_false_iff in H. destruct H as [H _].
  apply Ascii.eqb_neq in H. cbn [String.prefix].
  destruct (ascii_dec "/" c); [congruence | reflexivity].
Qed.

Lemma name_in_spec (d p n : string) :
  name_in d p = Some n ->
  p = with_sep d ^^ n /\ n <> "" /\ existsb (Ascii.eqb "/") (Py.chars n) = false.
Proof.
  unfold name_in. fold (with_sep d).
  destruct (String.prefix (with_sep d) p) eqn:Hp; [|discriminate].
  destruct ((_ =? "") || _) eqn:Hc; [discriminate|].
  intros [= <-]. apply orb_false_iff in Hc. destruct Hc as [Hne Hs].
  split; [apply prefix_split, Hp|]. split; [|exact Hs].
  apply String.eqb_neq, Hne.
Qed.

Lemma name_in_below (d p n : string) : name_in d p = Some n -> below d p = true.
Proof.
  intro H. apply name_in_spec in H. destruct H as (-> & Hne & _).
  unfold below. fold (with_sep d). rewrite prefix_append. simpl.
  apply negb_true_iff, String.eqb_neq. intro E. apply append_same in E. congruence.
Qed.

Lemma os_path_join_name (d n : string) :
  d <> "" -> existsb (Ascii.eqb "/") (Py.chars n) = false ->
  Py.os_path_join d n = with_sep d ^^ n.
Proof.
  intros Hd Hn. unfold Py.os_path_join, with_sep.
  rewrite (no_slash_startswith _ Hn).
  apply String.eqb_neq in Hd. rewrite Hd. simpl.
  destruct (Py.endswith d "/"); [reflexivity | rewrite append_assoc; reflexivity].
Qed.

(** Joining a folder and a relative name puts the name after the folder and
    its separator. *)
Lemma os_path_join_relative (a b : string) :
  Py.startswith b "/" = false -> Py.os_path_join a b = a ^^ join_sep a ^^ b.
Proof.
  intro H. unfold Py.os_path_join, join_sep. rewrite H.
  destruct ((a =? "") || Py.endswith a "/"); reflexivity.
Qed.

(** ** What glob lists *)

Lemma glob_in_spec (fs : FS) (d pattern q : string) :
  d <> "" -> In q (glob_in fs d pattern) ->
  exists k n, In (q, k) fs /\ name_in d q = Some n /\ listed pattern n = true.
Proof.
  intros Hd H. unfold glob_in in H. apply in_flat_map in H.
  destruct H as ([p k] & Hin & Hq). simpl in Hq.
  destruct (name_in d p) as [n|] eqn:En; [|destruct Hq].
  fold (listed pattern n) in Hq.
  destruct (listed pattern n) eqn:El; [|destruct Hq].
  destruct Hq as [<- | []].
  destruct (@name_in_spec _ _ _ En) as (Hp & _ & Hs).
  rewrite (@os_path_join_name _ _ Hd Hs), <- Hp. eauto.
Qed.


Lemma glob_in_below (fs : FS) (d pattern q : string) :
  d <> "" -> In q (glob_in fs d pattern) -> below d q = true.
Proof.
  intros Hd H. destruct (@glob_in_spec _ _ _ _ Hd H) as (k & n & _ & Hn & _).
  exact (@name_in_below _ _ _ Hn).
Qed.

Lemma lookup_In (fs : FS) (p : string) (k : kind) : lookup fs p = Some k -> In (p, k) fs.
Proof.
  unfold lookup. destruct (find _ fs) as [[q kq]|] eqn:E; [|discriminate].
  simpl. intros [= <-]. apply find_some in E. destruct E as [Hin Hq].
  simpl in Hq. apply String.eqb_eq in Hq. subst q. exact Hin.
Qed.

(** ** The tile folder and the paths beside it *)

Lemma tile_dir_nonempty (out_folder : string) :
  Py.os_path_join out_folder "temp_tiles" <> "".
Proof.
  rewrite (@os_path_join_relative out_folder "temp_tiles" eq_refl).
  apply append_nonempty, append_nonempty. discriminate.
Qed.

Lemma below_prefix (d p : string) : below d p = true -> String.prefix d p = true.
Proof.
  unfold below. intro H. apply andb_true_iff in H. destruct H as [H _].
  destruct (Py.endswith d "/"); [exact H | exact (@prefix_app_l _ _ _ H)].
Qed.

(** A path of the output folder whose first component does not start like
    [temp_tiles] is neither the tile folder nor below it. *)
Lemma beside_tile_dir (out_folder name : string) :
  String.prefix "temp_tiles" name = false ->
  let d := Py.os_path_join out_folder "temp_tiles" in
  let q := out_folder ^^ join_sep out_folder ^^ name in
  q <> d /\ below d q = false.
Proof.
  intros Hn d q.
  assert (Hp : String.prefix d q = false).
  { subst d q. rewrite (@os_path_join_relative out_folder "temp_tiles" eq_refl).
    rewrite !prefix_cancel. exact Hn. }
  split.
  - intro E. rewrite E, prefix_refl in Hp. discriminate.
  - destruct (below d q) eqn:E; [|reflexivity].
    apply below_prefix in E. congruence.
Qed.

(** ** Rules for [triple] *)

Lemma triple_ret {A} (pre : FS -> Prop) (a : A) (post : A -> FS -> Prop) :
  (forall fs, pre fs -> post a fs) -> triple pre (ret a) post.
Proof. intros H fs Hp b [= <-]. apply H, Hp. Qed.

Lemma triple_bind {A B} (pre : FS -> Prop) (mid : A -> FS -> Prop)
    (post : B -> FS -> Prop) (m : M A) (k : A -> M B) :
  triple pre m mid -> (forall a, triple (mid a) (k a) post) -> triple pre (bind m k) post.
Proof.
  intros Hm Hk fs Hp b Hb.
  destruct (bind_Ok_inv _ _ _ Hb) as (a & Ha & Hkb & Hf).
  rewrite Hf. exact (Hk a _ (Hm fs Hp a Ha) b Hkb).
Qed.

Lemma triple_conseq {A} (pre pre' : FS -> Prop) (post post' : A -> FS -> Prop) (m : M A) :
  triple pre m post ->
  (forall fs, pre' fs -> pre fs) ->
  (forall a fs, post a fs -> post' a fs) ->
  triple pre' m post'.
Proof. intros H Hpre Hpost fs Hp a Ha. apply Hpost, (H fs (Hpre fs Hp) a Ha). Qed.

(** A property that [R] carries along holds after a piece that changes the
    file system by [R]. *)
Lemma triple_changes {A} (R : FS -> FS -> Prop) (Q : A -> Prop) (pre : FS -> Prop)
    (m : M A) :
  changes R Q m ->
  (forall fs fs', pre fs -> R fs fs' -> pre fs') ->
  triple pre m (fun a fs => pre fs /\ Q a).
Proof.
  intros Hm Hs fs Hp a Ha. destruct (Hm fs) as [Hr Hq].
  split; [exact (Hs _ _ Hp Hr) | exact (Hq a Ha)].
Qed.

Lemma triple_glob (pre : FS -> Prop) (d pattern : string) :
  triple pre (glob_glob d pattern) (fun l fs => pre fs /\ l = glob_in fs d pattern).
Proof. intros fs Hp a Ha. simpl in *. injection Ha as <-. auto. Qed.

Lemma triple_for_ {A} (inv : FS -> Prop) (l : list A) (body : A -> M unit) :
  (forall x, In x l -> triple inv (body x) (fun _ => inv)) ->
  triple inv (for_ l body) (fun _ => inv).
Proof.
  induction l as [|x l IH]; intros Hb; simpl.
  - apply triple_ret. trivial.
  - apply triple_bind with (mid := fun _ => inv).
    + apply Hb. left. reflexivity.
    + intros _. apply IH. intros y Hy. apply Hb. right. exact Hy.
Qed.

(** ** Entries under removal *)

Lemma os_remove_run (p : string) (fs : FS) :
  os_remove p fs
  = match lookup fs p with
    | Some File => MkRun (Ok tt) (Fs.delete fs p) []
    | Some Dir => MkRun (Raise (IsADirectoryError p)) fs []
    | None => MkRun (Raise (FileNotFoundError p)) fs []
    end.
Proof.
  unfold os_remove, get_fs, put_fs, raise, bind.
  destruct (lookup fs p) as [[|]|]; reflexivity.
Qed.

Lemma os_rmdir_run (p : string) (fs : FS) :
  os_rmdir p fs
  = match lookup fs p with
    | Some Dir =>
        if is_empty_dir fs p then MkRun (Ok tt) (Fs.delete fs p) []
        else MkRun (Raise (DirectoryNotEmpty p)) fs []
    | Some File => MkRun (Raise (NotADirectoryError p)) fs []
    | None => MkRun (Raise (FileNotFoundError p)) fs []
    end.
Proof.
  unfold os_rmdir, get_fs, put_fs, raise, bind.
  destruct (lookup fs p) as [[|]|]; try reflexivity.
  destruct (is_empty_dir fs p); reflexivity.
Qed.

Lemma not_empty_dir (fs : FS) (d p : string) (k : kind) :
  lookup fs p = Some k -> below d p = true -> is_empty_dir fs d = false.
Proof.
  intros Hl Hb. apply lookup_In in Hl. unfold is_empty_dir.
  destruct (forallb _ fs) eqn:E; [|reflexivity].
  rewrite forallb_forall in E. specialize (E _ Hl). simpl in E.
  rewrite Hb in E. discriminate.
Qed.

Lemma is_empty_dir_delete (fs : FS) (d q : string) :
  is_empty_dir fs d = true -> is_empty_dir (Fs.delete fs q) d = true.
Proof.
  unfold is_empty_dir, Fs.delete. rewrite !forallb_forall.
  intros H e He. apply filter_In in He. apply H, He.
Qed.

Lemma is_empty_dir_add (fs : FS) (d q : string) (k : kind) :
  below d q = false -> is_empty_dir fs d = true -> is_empty_dir (Fs.add fs q k) d = true.
Proof.
  intros Hq H. unfold Fs.add. destruct (exists_ fs q); [exact H|].
  unfold is_empty_dir in *. rewrite forallb_app, H. simpl. rewrite Hq. reflexivity.
Qed.

Lemma exists_add_other (fs : FS) (d q : string) (k : kind) :
  q <> d -> exists_ fs d = false -> exists_ (Fs.add fs q k) d = false.
Proof.
  intros Hq H. unfold Fs.add. destruct (exists_ fs q); [exact H|].
  unfold exists_ in *. destruct (lookup fs d) eqn:E; [discriminate|].
  rewrite (@lookup_app_none _ _ _ E). unfold lookup. simpl.
  apply String.eqb_neq in Hq. rewrite Hq. reflexivity.
Qed.

Lemma exists_add (fs : FS) (p : string) (k : kind) : exists_ (Fs.add fs p k) p = true.
Proof.
  unfold Fs.add. destruct (exists_ fs p) eqn:E; [exact E|].
  unfold exists_ in *. destruct (lookup fs p) eqn:El; [discriminate|].
  rewrite (@lookup_app_none _ _ _ El). unfold lookup. simpl.
  rewrite String.eqb_refl. reflexivity.
Qed.

Lemma exists_kept (fs fs' : FS) (p : string) :
  kept fs fs' -> exists_ fs p = true -> exists_ fs' p = true.
Proof.
  unfold exists_. intros H. destruct (lookup fs p) as [k|] eqn:E; [|discriminate].
  rewrite (H p k E). trivial.
Qed.

Lemma exists_delete_other (fs : FS) (q p : string) :
  p <> q -> exists_ fs p = true -> exists_ (Fs.delete fs q) p = true.
Proof. intros H. unfold exists_. rewrite (lookup_delete_other fs H). trivial. Qed.

Lemma triple_assume {A} (P : Prop) (pre : FS -> Prop) (m : M A) (post : A -> FS -> Prop) :
  (P -> triple pre m post) -> triple (fun fs => pre fs /\ P) m post.
Proof. intros H fs [Hp HP] a Ha. exact (H HP fs Hp a Ha). Qed.

(** A step that only adds entries carries along what [kept] carries. *)
Ltac adds_only :=
  eapply triple_conseq;
  [ apply (@triple_changes _ kept (fun _ => True));
    [ changes_with ltac:(intros; apply kept_add) | ]
  | intros ? H; exact H
  | intros ? ? [H _]; exact H ].

(** ** The tile folder after a tiled land-cover download *)

Lemma has_kept (p : string) (k : kind) (fs fs' : FS) :
  lookup fs p = Some k -> kept fs fs' -> lookup fs' p = Some k.
Proof. intros H Hk. apply Hk, H. Qed.

(** An entry of the tile folder that glob does not list under [*.tif] is
    still there when the folder is to be removed: the tiled branch cannot
    return. *)
Lemma dynworld_class_blocked (env : Env) (dw_composite ee_shp ee_geometry : EE)
    (out_folder dst_crs : string) (out_res : Q) (p : string) (k : kind) :
  let d := Py.os_path_join out_folder "temp_tiles" in
  below d p = true ->
  (forall n, name_in d p = Some n -> listed "*.tif" n = false) ->
  triple (fun fs => lookup fs p = Some k)
    (dynworld_class env true dw_composite ee_shp ee_geometry out_folder dst_crs out_res)
    (fun _ _ => False).
Proof.
  intros d Hb Hn. unfold dynworld_class. cbv iota zeta. fold d.
  kept_rules.
  do 4 (apply triple_bind with (mid := fun _ fs => lookup fs p = Some k);
        [adds_only; intros ? ?; apply has_kept | intros ?]).
  apply triple_bind
    with (mid := fun ml fs => lookup fs p = Some k /\ (forall q, In q ml -> q <> p)).
  { eapply triple_conseq; [apply triple_glob | intros ? H; exact H |].
    intros ml fs [H ->]. split; [exact H|]. intros q Hq ->.
    destruct (@glob_in_spec _ _ _ _ (tile_dir_nonempty out_folder) Hq)
      as (kq & n & _ & Hname & Hl).
    rewrite (Hn n Hname) in Hl. discriminate. }
  intros ml. apply triple_assume. intro Hml.
  apply triple_bind with (mid := fun _ fs => lookup fs p = Some k);
    [adds_only; intros ? ?; apply has_kept | intros ?].
  apply triple_bind with (mid := fun _ fs => lookup fs p = Some k).
  - apply triple_for_. intros q Hq fs0 H r Hr.
    rewrite os_remove_run in *. destruct (lookup fs0 q) as [[|]|]; try discriminate.
    cbn [fs_after]. rewrite lookup_delete_other; [exact H|].
    intros ->. exact (Hml _ Hq eq_refl).
  - intros _ fs0 H r Hr. rewrite os_rmdir_run in Hr.
    rewrite (@not_empty_dir _ _ _ _ H Hb) in Hr.
    destruct (lookup fs0 d) as [[|]|]; discriminate.
Qed.

(** X8: a tiled land-cover download cannot return when the tile folder
    holds anything that glob does not list under [*.tif] (a file of another
    type, a hidden file, something in a sub-folder): the entry is never
    removed, so removing the folder fails. *)
Theorem X8_foreign_entry_blocks_tiled_download (env : Env)
    (ee_project_id aoi_shp_path : string) (start_date end_date : list string)
    (out_folder : string) (bands : option (list string)) (out_epsg : option Z)
    (out_res : Q) (prob_type : option string) (fs : FS) (p : string) (k : kind) :
  let d := Py.os_path_join out_folder "temp_tiles" in
  dynworld_strategy env aoi_shp_path = Aoi.Tiled ->
  lookup fs p = Some k ->
  below d p = true ->
  (forall n, name_in d p = Some n -> listed "*.tif" n = false) ->
  res (get_dynworld_landcover env ee_project_id aoi_shp_path start_date end_date
         out_folder bands out_epsg out_res prob_type fs) <> Ok tt.
Proof.
  intros d Hs Hp Hb Hn Hok. unfold dynworld_strategy in Hs.
  destruct (Aoi.on_bounds Aoi.dw_large_aoi _) eqn:E; [|discriminate].
  rewrite get_dynworld_landcover_run, E in Hok. unfold after at 1 in Hok.
  cbn [res] in Hok. apply bind_Ok_inv in Hok. destruct Hok as (col & _ & Hk & _).
  unfold after in Hk. cbn [res] in Hk. rewrite _get_dynworld_col_untouched in Hk.
  apply bind_Ok_inv in Hk. destruct Hk as ([] & Hc & _).
  exact (@dynworld_class_blocked env _ _ _ out_folder _ _ p k Hb Hn fs Hp tt Hc).
Qed.

Lemma X8_witness :
  res (Sample.dynworld "big.shp" None None
         [("out/temp_tiles", Dir); ("out/temp_tiles/landcover_1.tif.aux.xml", File)])
  <> Ok tt.
Proof.
  apply (@X8_foreign_entry_blocks_tiled_download Sample.env "project" "big.shp"
           Sample.dates_from Sample.dates_to "out" None (Some 4326%Z) 10 None
           [("out/temp_tiles", Dir); ("out/temp_tiles/landcover_1.tif.aux.xml", File)]
           "out/temp_tiles/landcover_1.tif.aux.xml" File eq_refl eq_refl eq_refl).
  intros n Hn. vm_compute in Hn. injection Hn as <-. reflexivity.
Defined.

Lemma landcover_beside (out_folder : string) :
  let d := Py.os_path_join out_folder "temp_tiles" in
  let q := Py.os_path_join out_folder "landcover.tif" in
  q <> d /\ below d q = false.
Proof.
  cbv zeta. rewrite (@os_path_join_relative out_folder "landcover.tif" eq_refl).
  apply beside_tile_dir. reflexivity.
Qed.

Lemma probability_dir_beside (out_folder : string) :
  let d := Py.os_path_join out_folder "temp_tiles" in
  let q := Py.os_path_join out_folder "probability" in
  q <> d /\ below d q = false.
Proof.
  cbv zeta. rewrite (@os_path_join_relative out_folder "probability" eq_refl).
  apply beside_tile_dir. reflexivity.
Qed.

Lemma probability_file_beside (out_folder name : string) :
  Py.startswith name "/" = false ->
  let d := Py.os_path_join out_folder "temp_tiles" in
  let q := Py.os_path_join (Py.os_path_join out_folder "probability") name in
  q <> d /\ below d q = false.
Proof.
  intro Hn. cbv zeta. rewrite (@os_path_join_relative _ _ Hn).
  rewrite (@os_path_join_relative out_folder "probability" eq_refl).
  rewrite !append_assoc. apply beside_tile_dir. reflexivity.
Qed.

Lemma tiles_cleaned_add (out_folder : string) (fs : FS) (q : string) (k : kind) :
  q <> Py.os_path_join out_folder "temp_tiles"
  /\ below (Py.os_path_join out_folder "temp_tiles") q = false ->
  tiles_cleaned out_folder fs -> tiles_cleaned out_folder (Fs.add fs q k).
Proof.
  intros [Hq Hb] (H1 & H2 & H3). repeat split.
  - apply exists_add_other; assumption.
  - apply is_empty_dir_add; assumption.
  - exact (@exists_kept _ _ _ (kept_add fs q k) H3).
Qed.

Lemma dynworld_class_cleans (env : Env) (dw_composite ee_shp ee_geometry : EE)
    (out_folder dst_crs : string) (out_res : Q) :
  triple (fun _ => True)
    (dynworld_class env true dw_composite ee_shp ee_geometry out_folder dst_crs out_res)
    (fun _ => tiles_cleaned out_folder).
Proof.
  unfold dynworld_class. cbv iota zeta.
  set (d := Py.os_path_join out_folder "temp_tiles").
  set (p0 := Py.os_path_join out_folder "landcover.tif").
  destruct (landcover_beside out_folder) as [Hp0 Hb0]. fold d p0 in Hp0, Hb0.
  do 4 (apply triple_bind with (mid := fun _ _ => True);
        [intros ? _ ? _; exact I | intros ?]).
  apply triple_bind
    with (mid := fun ml fs => True /\ (forall q, In q ml -> below d q = true)).
  { eapply triple_conseq; [apply triple_glob | intros ? H; exact H |].
    intros ml fs [_ ->]. split; [exact I|]. intros q Hq.
    exact (@glob_in_below _ _ _ _ (tile_dir_nonempty out_folder) Hq). }
  intros ml. apply triple_assume. intro Hml.
  apply triple_bind with (mid := fun _ fs => exists_ fs p0 = true).
  { intros fs0 _ r Hr. rewrite mosaicRasters_run in *.
    destruct (mosaic_accepts env ml); [|discriminate].
    cbn [fs_after]. apply exists_add. }
  intros _.
  apply triple_bind with (mid := fun _ fs => exists_ fs p0 = true).
  - apply triple_for_. intros q Hq fs0 H r Hr.
    rewrite os_remove_run in *. destruct (lookup fs0 q) as [[|]|]; try discriminate.
    cbn [fs_after]. apply exists_delete_other; [|exact H].
    intros ->. rewrite (Hml _ Hq) in Hb0. discriminate.
  - intros _ fs0 H r Hr. rewrite os_rmdir_run in *.
    destruct (lookup fs0 d) as [[|]|]; try discriminate.
    destruct (is_empty_dir fs0 d) eqn:Ee; [|discriminate].
    cbn [fs_after]. unfold tiles_cleaned. fold d p0. repeat split.
    + apply exists_delete.
    + apply is_empty_dir_delete, Ee.
    + apply exists_delete_other; assumption.
Qed.

Lemma dynworld_probability_keeps_clean (env : Env) (prob_type : string)
    (large_aoi : bool) (landcover_col ee_shp ee_geometry : EE) (bands : list string)
    (out_folder dst_crs : string) (out_res : Q) :
  triple (tiles_cleaned out_folder)
    (dynworld_probability env prob_type large_aoi landcover_col ee_shp ee_geometry
       bands out_folder dst_crs out_res)
    (fun _ => tiles_cleaned out_folder).
Proof.
  set (R := fun fs fs' : FS => tiles_cleaned out_folder fs -> tiles_cleaned out_folder fs').
  assert (Hrefl : forall fs, R fs fs) by (intros fs H; exact H).
  assert (Htrans : forall f1 f2 f3, R f1 f2 -> R f2 f3 -> R f1 f3)
    by (intros f1 f2 f3 H1 H2 H; apply H2, H1, H).
  assert (H : changes R (fun _ => True)
                (dynworld_probability env prob_type large_aoi landcover_col ee_shp
                   ee_geometry bands out_folder dst_crs out_res)).
  { changes_with
      ltac:(intros fs0 H0; apply tiles_cleaned_add;
            [first [apply probability_dir_beside
                   | apply probability_file_beside; reflexivity]
            | exact H0]). }
  intros fs Hfs a _. exact (proj1 (H fs) Hfs).
Qed.

Lemma dynworld_tiled_cleaned (env : Env)
    (ee_project_id aoi_shp_path : string) (start_date end_date : list string)
    (out_folder : string) (bands : option (list string)) (out_epsg : option Z)
    (out_res : Q) (prob_type : option string) (fs : FS) :
  let run :=
    get_dynworld_landcover env ee_project_id aoi_shp_path start_date end_date
      out_folder bands out_epsg out_res prob_type fs in
  dynworld_strategy env aoi_shp_path = Aoi.Tiled ->
  res run = Ok tt ->
  tiles_cleaned out_folder (fs_after run).
Proof.
  intro run. subst run. unfold dynworld_strategy. intro Hs.
  destruct (Aoi.on_bounds Aoi.dw_large_aoi _) eqn:E; [|discriminate].
  rewrite get_dynworld_landcover_run, E. unfold after at 1 3. cbn [res fs_after].
  intro H. apply bind_Ok_inv in H. destruct H as (col & _ & Hk & Hf).
  rewrite Hf. clear Hf. unfold after in *. cbn [res fs_after] in *.
  revert Hk. generalize (fs_after
    (_get_dynworld_col (Apply FeatureCollection_geometry [Shp aoi_shp_path])
       start_date end_date fs)). intros fs1 Hk.
  assert (T : triple (fun _ => True)
                (bind (dynworld_class env true (dw_composite_of col)
                         (Apply FeatureCollection_geometry [Shp aoi_shp_path])
                         (Apply FeatureCollection_geometry [Shp aoi_shp_path])
                         out_folder ("EPSG:" ^^ Py.str_of_opt_int out_epsg) out_res)
                   (fun _ =>
                      match prob_type with
                      | Some prob_type =>
                          dynworld_probability env prob_type true col
                            (Apply FeatureCollection_geometry [Shp aoi_shp_path])
                            (Apply FeatureCollection_geometry [Shp aoi_shp_path])
                            match bands with
                            | Some bands => bands
                            | None => dynworld_bands
                            end out_folder ("EPSG:" ^^ Py.str_of_opt_int out_epsg)
                            out_res
                      | None => ret tt
                      end))
                (fun _ => tiles_cleaned out_folder)).
  { apply triple_bind with (mid := fun _ => tiles_cleaned out_folder).
    - apply dynworld_class_cleans.
    - intros _. destruct prob_type as [pt|].
      + apply dynworld_probability_keeps_clean.
      + apply triple_ret. trivial. }
  exact (T fs1 I tt Hk).
Qed.

(** X9: when a tiled run of [get_dynworld_landcover] returns, with or
    without probabilities, the folder [temp_tiles] is gone, no entry is left
    below it, and [landcover.tif] is in the output folder. *)
Theorem X9_tiled_download_leaves_one_raster_and_no_tiles (env : Env)
    (ee_project_id aoi_shp_path : string) (start_date end_date : list string)
    (out_folder : string) (bands : option (list string)) (out_epsg : option Z)
    (out_res : Q) (prob_type : option string) (fs : FS) :
  let run :=
    get_dynworld_landcover env ee_project_id aoi_shp_path start_date end_date
      out_folder bands out_epsg out_res prob_type fs in
  dynworld_strategy env aoi_shp_path = Aoi.Tiled ->
  res run = Ok tt ->
  tiles_cleaned out_folder (fs_after run).
Proof.
  intros run Hs Hok. exact (@dynworld_tiled_cleaned env ee_project_id aoi_shp_path
                             start_date end_date out_folder bands out_epsg out_res
                             prob_type fs Hs Hok).
Qed.

Lemma X9_witness :
  tiles_cleaned "out"
    (fs_after (Sample.dynworld "big.shp" (Some ["water"]) (Some "mean") Sample.old_tiles)).
Proof.
  exact (@X9_tiled_download_leaves_one_raster_and_no_tiles Sample.env "project"
           "big.shp" Sample.dates_from Sample.dates_to "out" (Some ["water"])
           (Some 4326%Z) 10 (Some "mean") Sample.old_tiles eq_refl eq_refl).
Defined.

(** ** What a tiled download may remove *)




(** ** Tiles left over from an earlier run *)






(** ** What a single-shot run leaves *)





(** ** Growing the bounding box *)

Lemma large_aoi_labelled_grows (xmin ymin xmax ymax xmin' ymin' xmax' ymax' : Q) :
  xmin' <= xmin -> xmin <= xmax -> xmax <= xmax' ->
  ymin' <= ymin -> ymin <= ymax -> ymax <= ymax' ->
  Aoi.large_aoi_labelled (xmin, ymin, xmax, ymax) = true ->
  Aoi.large_aoi_labelled (xmin', ymin', xmax', ymax') = true.
Proof.
  intros Hx1 Hx2 Hx3 Hy1 Hy2 Hy3. rewrite !large_aoi_labelled_spec.
  unfold Aoi.x_extent, Aoi.y_extent.
  assert (Ax : Qabs (xmax - xmin) == xmax - xmin) by (apply Qabs_pos; lra).
  assert (Ay : Qabs (ymax - ymin) == ymax - ymin) by (apply Qabs_pos; lra).
  assert (Ax' : Qabs (xmax' - xmin') == xmax' - xmin') by (apply Qabs_pos; lra).
  assert (Ay' : Qabs (ymax' - ymin') == ymax' - ymin') by (apply Qabs_pos; lra).
  rewrite Ax, Ay, Ax', Ay'. intros [H | H]; [left | right]; lra.
Qed.

(** X13: the test for a large AOI never falls back when the box grows: if a
    well-formed bounding box is large, so is every bounding box that
    contains it, for both public functions. *)
Theorem X13_larger_box_is_still_large
    (xmin ymin xmax ymax xmin' ymin' xmax' ymax' : Q) :
  xmin' <= xmin -> xmin <= xmax -> xmax <= xmax' ->
  ymin' <= ymin -> ymin <= ymax -> ymax <= ymax' ->
  (Aoi.dw_large_aoi (xmin, ymin, xmax, ymax) = true ->
   Aoi.dw_large_aoi (xmin', ymin', xmax', ymax') = true)
  /\ (Aoi.s2_large_aoi (xmin, ymin, xmax, ymax) = true ->
      Aoi.s2_large_aoi (xmin', ymin', xmax', ymax') = true).
Proof.
  intros Hx1 Hx2 Hx3 Hy1 Hy2 Hy3.
  rewrite !dw_large_aoi_eq, !s2_large_aoi_eq.
  split; apply large_aoi_labelled_grows; assumption.
Qed.

Lemma X13_witness :
  Aoi.dw_large_aoi (0, 0, 3 # 2, 1 # 2) = true
  /\ Aoi.dw_large_aoi (-1 # 1, 0, 2, 1) = true.
Proof.
  split; [reflexivity|].
  refine (proj1 (@X13_larger_box_is_still_large 0 0 (3 # 2) (1 # 2) (-1 # 1) 0 2 1
                   _ _ _ _ _ _) eq_refl);
    unfold Qle; simpl; lia.
Defined.

(** ** The tiled Sentinel-2 branch on a fresh folder *)








(** ** How often the mosaic helper is called *)






